(** * fastify-backend: sign-up / sign-in / OTP / bearer-token flow

    A shallow embedding of the TypeScript sources

      - [src/utils/index.ts]               (JWT helpers, Zod error formatting,
                                            OTP generation, password hashing)
      - [src/middleware/auth.middleware.ts] (the bearer-token gate)
      - [src/users/user.validation.schema.ts] (the Zod schemas)
      - [src/users/user.controller.ts]     (the four route handlers and the
                                            sign-up route)
      - [src/index.ts]                     (the top-level error handler)
      - [src/models/*.schema.ts]           (the [user] and [otp] tables)

    Conventions of the embedding.

      - A JavaScript string is a [string]: a sequence of 8-bit characters.
      - The relational store is a pair of row lists; [findFirst] returns the
        first row, in list order, that satisfies the [where] clause.  The
        column types decide which statements the server refuses: a value
        that does not fit a [varchar(255)] column, a text that is no uuid
        compared with a [uuid] column.  A refused statement throws, and
        the error handler of [src/index.ts] answers for the handler.
        Connection failures are outside the model.
      - Handlers are computations in a state monad over the store and a trace
        of the calls they make to the store and to the external libraries
        (bcrypt, jose).  Values the environment draws at random or reads from
        the clock (row ids, salts, timestamps, the OTP draw) are explicit
        arguments.
      - The libraries themselves (bcrypt's hash, jose's sign and verify, Zod's
        e-mail pattern) are interfaces: type classes whose methods the handlers
        call. *)

From Stdlib Require Ascii String.
From Stdlib Require Import ZArith.
From stdpp Require Import base option list strings gmap.
Import (notations) Stdlib.Strings.Ascii.

Local Open Scope Z_scope.

(** * JavaScript primitives used by the sources *)

Module JS.

(** [s.startsWith(prefix)] *)
Definition startsWith (s prefix : string) : bool := String.prefix prefix s.

(** [s.split(sep)] for a one-character separator: [split " " "Bearer "] is
    [["Bearer"; ""]], and the empty string splits into [[""]]. *)
Fixpoint split (sep : Ascii.ascii) (s : string) : list string :=
  match s with
  | EmptyString => [EmptyString]
  | String c rest =>
      if Ascii.eqb c sep then EmptyString :: split sep rest
      else match split sep rest with
           | [] => [String c EmptyString]
           | w :: ws => String c w :: ws
           end
  end.

(** [arr.join(sep)] on an array of strings. *)
Definition join (sep : string) (arr : list string) : string :=
  String.concat sep arr.

Fixpoint repeat (s : string) (count : nat) : string :=
  match count with
  | O => EmptyString
  | S k => s +:+ repeat s k
  end.

(** [s.padStart(targetLength, padString)]: the filler is [padString]
    repeated and cut to the missing length; nothing is added when [s] is
    already long enough or [padString] is empty. *)
Definition padStart (targetLength : nat) (padString : string) (s : string) : string :=
  let len := String.length s in
  if (targetLength <=? len)%nat then s
  else if String.eqb padString EmptyString then s
  else
    let fillLen := (targetLength - len)%nat in
    String.substring 0 fillLen (repeat padString fillLen) +:+ s.

Definition digit (d : N) : Ascii.ascii := Ascii.ascii_of_N (48 + d).

Fixpoint toString_go (fuel : nat) (n : N) (acc : string) : string :=
  match fuel with
  | O => acc
  | S fuel' =>
      let acc' := String (digit (n mod 10)%N) acc in
      if (n / 10 =? 0)%N then acc' else toString_go fuel' (n / 10)%N acc'
  end.

(** [n.toString()] for a non-negative integer: its decimal digits, most
    significant first, ["0"] for zero.  [n] has at most [n + 1] digits, which
    bounds the recursion. *)
Definition toString (n : N) : string :=
  toString_go (S (N.to_nat n)) n EmptyString.

(** [!s] for [s : string | undefined]: true on [undefined] and on [""]. *)
Definition not_string (s : option string) : bool :=
  match s with
  | None => true
  | Some v => String.eqb v EmptyString
  end.

(** The property names every object literal inherits from
    [Object.prototype]; reading one of them from [{}] yields a function (or,
    for [__proto__], the prototype object), never [undefined]. *)
Definition Object_prototype_keys : list string :=
  [ "constructor"; "__defineGetter__"; "__defineSetter__"; "hasOwnProperty";
    "__lookupGetter__"; "__lookupSetter__"; "isPrototypeOf";
    "propertyIsEnumerable"; "toString"; "valueOf"; "__proto__";
    "toLocaleString" ].

(** The truth value of [obj[key]] for [obj : Record<string, string>] created
    by the literal [{}]: an own property is truthy unless it is the empty
    string, an absent key is truthy exactly when [Object.prototype] supplies
    it. *)
Definition truthy_at (obj : gmap string string) (key : string) : bool :=
  match obj !! key with
  | Some v => negb (String.eqb v EmptyString)
  | None => bool_decide (key ∈ Object_prototype_keys)
  end.

End JS.

(** * PostgreSQL column types the tables use *)

Module Pg.

Definition is_space (c : Ascii.ascii) : bool := Ascii.eqb c " ".

(** Storing [value] in a [varchar(n)] column: a value of at most [n]
    characters is stored as it is; a longer one is cut to its first [n]
    characters when every character beyond them is a space, and is refused
    otherwise ("value too long for type character varying(n)"). *)
Definition varchar (n : nat) (value : string) : option string :=
  if (String.length value <=? n)%nat then Some value
  else if forallb is_space
            (String.list_ascii_of_string
               (String.substring n (String.length value - n) value))
       then Some (String.substring 0 n value)
       else None.

Definition lower_hex (c : Ascii.ascii) : bool :=
  let n := Ascii.N_of_ascii c in
  ((48 <=? n) && (n <=? 57) || (97 <=? n) && (n <=? 102))%N.

Fixpoint uuid_text_from (position : nat) (s : string) : bool :=
  match s with
  | EmptyString => (position =? 36)%nat
  | String c rest =>
      (if bool_decide (position ∈ [8; 13; 18; 23]%nat)
       then Ascii.eqb c "-" else lower_hex c)
      && uuid_text_from (S position) rest
  end.

(** The text the server prints for a [uuid] value: 32 lowercase hexadecimal
    digits in groups of 8, 4, 4, 4 and 12, separated by hyphens. *)
Definition uuid_text_form (s : string) : bool := uuid_text_from 0 s.

End Pg.

(** A value of a [uuid] column, by the text the server prints for it. *)
Record Uuid := mkUuid {
  uuid_text : string;
  uuid_form : Pg.uuid_text_form uuid_text = true
}.

Global Instance Uuid_eq_dec : EqDecision Uuid.
Proof.
  intros [a Ha] [b Hb]. destruct (decide (a = b)) as [Heq | Hne].
  - left. destruct Heq. by rewrite (proof_irrel Ha Hb).
  - right. intros Heq. by injection Heq.
Defined.

(** * Data model *)

(** [usersTable], [src/models/user.schema.ts].  [id] is a [uuid] column;
    [phone] and [createdAt] are nullable columns with a default. *)
Record UserRow := mkUser {
  user_id : Uuid;
  user_name : string;
  user_email : string;
  user_password : string;
  user_phone : option string;
  user_createdAt : option string
}.

(** [otpTable], [src/models/otp.schema.ts].  [isUsed] is a nullable boolean
    whose default is [false]. *)
Record OtpRow := mkOtp {
  otp_id : Uuid;
  otp_email : string;
  otp_code : string;
  otp_isUsed : option bool
}.

Record Store := mkStore {
  usersTable : list UserRow;
  otpTable : list OtpRow
}.

Global Instance UserRow_eq_dec : EqDecision UserRow.
Proof. solve_decision. Defined.
Global Instance OtpRow_eq_dec : EqDecision OtpRow.
Proof. solve_decision. Defined.
Global Instance Store_eq_dec : EqDecision Store.
Proof. solve_decision. Defined.

(** [JwtPayload], [src/utils/index.ts]. *)
Record JwtPayload := mkPayload {
  jwt_id : string;
  jwt_email : string;
  jwt_name : string
}.

Global Instance JwtPayload_eq_dec : EqDecision JwtPayload.
Proof. solve_decision. Defined.

(** What a failed [jwtVerify] throws, as far as the gate inspects it:
    [error.code], [error.name] and [error.message]. *)
Record JoseError := mkJoseError {
  err_code : option string;
  err_name : option string;
  err_message : string
}.

(** A cookie set with [reply.cookie(name, value, options)]. *)
Record Cookie := mkCookie {
  cookie_name : string;
  cookie_value : string;
  cookie_httpOnly : bool;
  cookie_sameSite : string;
  cookie_path : string;
  cookie_maxAge : Z
}.

(** The JSON bodies the handlers send. *)
Inductive Body :=
  | BMessage (message : string)
  | BMessageData (message : string) (data : option UserRow)
  | BError (error : string)
  | BErrorDetails (error : string) (details : string)
  | BInvalid (error : string) (details : gmap string string).

Record Reply := mkReply {
  status : Z;
  body : Body;
  cookies : list Cookie
}.

Definition send (code : Z) (b : Body) : Reply := mkReply code b [].

(** The externally visible calls a handler makes, in program order. *)
Inductive Event :=
  | QueryUserByEmail (email : string)
  | QueryUserById (id : string)
  | QueryOtp (email : string) (code : option string)
  | InsertUser (row : UserRow)
  | InsertOtp (row : OtpRow)
  | UpdateOtpUsed (email : string)
  | BcryptHash (password : string) (saltRounds : nat)
  | JwtSign (payload : JwtPayload) (expiresIn : string)
  | JwtVerify (token : string).

Record World := mkWorld {
  store : Store;
  trace : list Event
}.

(** * The handler monad: state over [World] *)

Definition M (A : Type) : Type := World → A * World.

Global Instance M_ret : MRet M := λ A (a : A) w, (a, w).
Global Instance M_bind : MBind M := λ A B (f : A → M B) (m : M A) w,
  let '(a, w') := m w in f a w'.

Definition emit (e : Event) : M unit :=
  λ w, (tt, mkWorld (store w) (trace w ++ [e])).

Definition get_store : M Store := λ w, (store w, w).

Definition put_store (s : Store) : M unit :=
  λ w, (tt, mkWorld s (trace w)).

(** * External libraries, as interfaces *)

(** [bcrypt.hash(data, saltRounds)] draws a salt and returns the encoded hash;
    the drawn salt is the third argument.  The encoded hash is 60 characters
    long: the version and cost prefix, 22 characters of salt and 31 of
    digest. *)
Class Bcrypt := {
  bcrypt_hash : string → nat → string → string;
  bcrypt_hash_length : ∀ data saltRounds salt,
    String.length (bcrypt_hash data saltRounds salt) = 60%nat
}.

(** The server's input function of the [uuid] type: the value a text
    denotes, none when the text is refused ("invalid input syntax for type
    uuid").  The text printed for a value denotes that value. *)
Class Postgres := {
  uuid_in : string → option Uuid;
  uuid_in_text : ∀ id, uuid_in (uuid_text id) = Some id
}.

(** jose: [new SignJWT(payload)...setIssuedAt().setExpirationTime(exp).sign(SECRET)]
    at clock reading [iat], and [jwtVerify(token, SECRET, {algorithms})], which
    either yields the payload or throws. *)
Class Jose := {
  SignJWT_sign : JwtPayload → string → Z → string;
  jwtVerify : string → JwtPayload + JoseError
}.

(** * The fragment of Zod the schemas use *)

Module Zod.

(** A request body, query or params value after JSON decoding. *)
#[warnings="-register-all"]
Inductive JsValue :=
  | JUndefined
  | JNull
  | JBool (b : bool)
  | JNumber (z : Z)
  | JString (s : string)
  | JArray (items : list JsValue)
  | JObject (props : gmap string JsValue).

Inductive PathSeg :=
  | Key (k : string)
  | Index (i : N).

Record ZodIssue := mkIssue {
  path : list PathSeg;
  message : string
}.

Record ZodError := mkZodError {
  issues : list ZodIssue
}.

Inductive SafeParseResult :=
  | Success (data : JsValue)
  | Failure (error : ZodError).

(** Character classes of the regular expressions in the schemas; each of
    those expressions is a single class, so [pattern.test(s)] asks whether
    some character of [s] lies in it. *)
Inductive CharClass :=
  | Range (lo hi : Ascii.ascii)
  | Union (a b : CharClass)
  | Negated (a : CharClass).

Fixpoint class_mem (cls : CharClass) (c : Ascii.ascii) : bool :=
  match cls with
  | Range lo hi =>
      (Ascii.N_of_ascii lo <=? Ascii.N_of_ascii c)%N
      && (Ascii.N_of_ascii c <=? Ascii.N_of_ascii hi)%N
  | Union a b => class_mem a c || class_mem b c
  | Negated a => negb (class_mem a c)
  end.

Definition test (cls : CharClass) (s : string) : bool :=
  existsb (class_mem cls) (String.list_ascii_of_string s).

(** [.min(n, message)] and [.regex(pattern, message)] *)
Inductive Check :=
  | min (minimum : nat) (message : string)
  | regex (pattern : CharClass) (message : string).

(** [z.string()...] with its checks in call order, and [z.email(params)]
    with its optional [error] text. *)
Inductive StringSchema :=
  | string_ (checks : list Check)
  | email (error : option string).

(** [z.object(shape)], keys in declaration order. *)
Definition ObjectSchema : Type := list (string * StringSchema).

Definition parsedType (v : JsValue) : string :=
  match v with
  | JUndefined => "undefined"
  | JNull => "null"
  | JBool _ => "boolean"
  | JNumber _ => "number"
  | JString _ => "string"
  | JArray _ => "array"
  | JObject _ => "object"
  end.

(** The English locale's text for an [invalid_type] issue. *)
Definition invalid_type (expected : string) (input : JsValue) : string :=
  "Invalid input: expected " +:+ expected +:+ ", received " +:+ parsedType input.

(** A failing check adds its issue and the later checks still run. *)
Definition run_check (c : Check) (input : string) : list ZodIssue :=
  match c with
  | min minimum msg =>
      if (minimum <=? String.length input)%nat then [] else [mkIssue [] msg]
  | regex pattern msg =>
      if test pattern input then [] else [mkIssue [] msg]
  end.

Section Parse.
(** Zod's e-mail pattern, [pattern.test(input)]. *)
Variable email_test : string → bool.

(** A value of the wrong type yields one [invalid_type] issue and the
    checks are skipped. *)
Definition parse_string (s : StringSchema) (input : JsValue) : list ZodIssue :=
  match s, input with
  | string_ checks, JString str => flat_map (λ c, run_check c str) checks
  | string_ _, _ => [mkIssue [] (invalid_type "string" input)]
  | email error, JString str =>
      if email_test str then []
      else [mkIssue [] (default "Invalid email address" error)]
  | email error, _ =>
      [mkIssue [] (default (invalid_type "string" input) error)]
  end.

Definition at_key (k : string) (i : ZodIssue) : ZodIssue :=
  mkIssue (Key k :: path i) (message i).

Definition parse_props (shape : ObjectSchema) (props : gmap string JsValue)
  : list ZodIssue :=
  flat_map (λ '(k, s),
    at_key k <$> parse_string s (default JUndefined (props !! k))) shape.

(** The parsed value keeps the declared keys only; unknown keys are
    stripped. *)
Definition strip (shape : ObjectSchema) (props : gmap string JsValue)
  : gmap string JsValue :=
  filter (λ kv, kv.1 ∈ shape.*1) props.

(** [schema.safeParse(input)] for an object schema. *)
Definition safeParse (shape : ObjectSchema) (input : JsValue) : SafeParseResult :=
  match input with
  | JObject props =>
      match parse_props shape props with
      | [] => Success (JObject (strip shape props))
      | iss => Failure (mkZodError iss)
      end
  | _ => Failure (mkZodError [mkIssue [] (invalid_type "object" input)])
  end.
End Parse.

End Zod.

(** Zod's built-in e-mail pattern, [pattern.test(input)]. *)
Class ZodFormats := {
  email_pattern_test : string → bool
}.

(** * [src/types/fastify.d.ts]: the request, with the attached identity *)

Record FastifyRequest := mkRequest {
  req_body : Zod.JsValue;
  req_query : Zod.JsValue;
  req_params : Zod.JsValue;
  req_authorization : option string;
  req_user : option JwtPayload
}.

(** The outcome of a hook: [Some reply] when the hook has sent the reply
    itself (the request goes no further), and the request as the hook left
    it. *)
Definition HookResult : Type := option Reply * FastifyRequest.

(** * [src/utils/index.ts] *)

Module Utils.
Section Utils.
Context `{!Bcrypt, !Jose, !ZodFormats}.

(** [encodeJWT(payload, expiresIn = "15m")], called at clock reading [iat]. *)
Definition encodeJWT (payload : JwtPayload) (expiresIn : option string) (iat : Z)
  : M string :=
  let expiresIn := default "15m" expiresIn in
  emit (JwtSign payload expiresIn);;
  mret (SignJWT_sign payload expiresIn iat).

(** [verifyJWT(token)]: [inr] is the error [jwtVerify] throws. *)
Definition verifyJWT (token : string) : M (JwtPayload + JoseError) :=
  emit (JwtVerify token);;
  mret (jwtVerify token).

Definition segment_toString (seg : Zod.PathSeg) : string :=
  match seg with
  | Zod.Key k => k
  | Zod.Index i => JS.toString i
  end.

(** The body of the loop in [formatZodErrors]: [formatted[path]] is written
    only while [!formatted[path]] holds. *)
Definition record_issue (formatted : gmap string string) (issue : Zod.ZodIssue)
  : gmap string string :=
  let path := JS.join "." (segment_toString <$> Zod.path issue) in
  if negb (JS.truthy_at formatted path)
  then <[path := Zod.message issue]> formatted
  else formatted.

(** [formatZodErrors(error)]: the loop over [error.issues], from [{}]. *)
Definition formatZodErrors (error : Zod.ZodError) : gmap string string :=
  foldl record_issue ∅ (Zod.issues error).

Record Schemas := mkSchemas {
  schemas_body : option Zod.ObjectSchema;
  schemas_query : option Zod.ObjectSchema;
  schemas_params : option Zod.ObjectSchema
}.

Definition invalid (what : string) (error : Zod.ZodError) : Reply :=
  send 422 (BInvalid what (formatZodErrors error)).

(** [validateWithZod(req, reply, schemas)]: body, then query, then params; the
    first failing part sends the 422 reply, a passing part is replaced by its
    parsed value.  [safeParse] returns its error instead of throwing, so the
    [catch] branch of the source is never entered. *)
Definition validateWithZod (req : FastifyRequest) (schemas : Schemas) : HookResult :=
  let parse := Zod.safeParse email_pattern_test in
  match
    match schemas_body schemas with
    | Some schema =>
        match parse schema (req_body req) with
        | Zod.Failure error => inl (invalid "Invalid body" error)
        | Zod.Success data =>
            inr (mkRequest data (req_query req) (req_params req)
                           (req_authorization req) (req_user req))
        end
    | None => inr req
    end
  with
  | inl reply => (Some reply, req)
  | inr req1 =>
      match
        match schemas_query schemas with
        | Some schema =>
            match parse schema (req_query req1) with
            | Zod.Failure error => inl (invalid "Invalid query" error)
            | Zod.Success data =>
                inr (mkRequest (req_body req1) data (req_params req1)
                               (req_authorization req1) (req_user req1))
            end
        | None => inr req1
        end
      with
      | inl reply => (Some reply, req1)
      | inr req2 =>
          match schemas_params schemas with
          | Some schema =>
              match parse schema (req_params req2) with
              | Zod.Failure error => (Some (invalid "Invalid params" error), req2)
              | Zod.Success data =>
                  (None, mkRequest (req_body req2) (req_query req2) data
                                   (req_authorization req2) (req_user req2))
              end
          | None => (None, req2)
          end
      end
  end.

(** [crypto.randomInt(min, max)] returns an integer [n] with
    [min <= n < max]. *)
Definition randomInt (min max : N) (n : N) : Prop := (min ≤ n < max)%N.

(** [generate4DigitOTP()], on the integer [randomInt(0, 10_000)] returned. *)
Definition generate4DigitOTP (drawn : N) : string :=
  JS.padStart 4 "0" (JS.toString drawn).

(** [hashPassword(password)], with the salt bcrypt draws. *)
Definition hashPassword (password : string) (salt : string) : M string :=
  let saltRounds := 10%nat in
  emit (BcryptHash password saltRounds);;
  mret (bcrypt_hash password saltRounds salt).

End Utils.
End Utils.

(** * Fastify's hook-then-handler lifecycle *)

(** A route registered with a [preValidation] or [preHandler] hook: the
    handler runs only when the hook has not sent the reply. *)
Definition with_hook (hook : FastifyRequest → M HookResult)
    (handler : FastifyRequest → M Reply) (request : FastifyRequest) : M Reply :=
  r ← hook request;
  match r.1 with
  | Some reply => mret reply
  | None => handler r.2
  end.

(** * [src/middleware/auth.middleware.ts] *)

Module AuthMiddleware.
Section AuthMiddleware.
Context `{!Jose}.

Definition expired (error : JoseError) : bool :=
  bool_decide (err_code error = Some "ERR_JWT_EXPIRED")
  || bool_decide (err_name error = Some "JWTExpired").

(** [handle(request, reply)].  Past the guard the header starts with
    ["Bearer "], so [token.split(" ")] has an element at index 1. *)
Definition handle (request : FastifyRequest) : M HookResult :=
  let token := req_authorization request in
  if JS.not_string token || negb (JS.startsWith (default "" token) "Bearer ")
  then mret (Some (send 401 (BError "Unauthorized")), request)
  else
    r ← Utils.verifyJWT (default "" (JS.split " "%char (default "" token) !! 1%nat));
    match r with
    | inl tokenPayload =>
        mret (None, mkRequest (req_body request) (req_query request)
                              (req_params request) (req_authorization request)
                              (Some tokenPayload))
    | inr error =>
        let message := if expired error then "Token expired" else "Invalid token" in
        mret (Some (send 401 (BErrorDetails message (err_message error))), request)
    end.

End AuthMiddleware.
End AuthMiddleware.

(** * [src/users/user.validation.schema.ts] *)

Module UserValidationSchema.
Section UserValidationSchema.
Context `{!ZodFormats}.

Definition upper : Zod.CharClass := Zod.Range "A" "Z".
Definition lower : Zod.CharClass := Zod.Range "a" "z".
Definition digit : Zod.CharClass := Zod.Range "0" "9".
(** [/[^A-Za-z0-9]/] *)
Definition special : Zod.CharClass :=
  Zod.Negated (Zod.Union upper (Zod.Union lower digit)).

Definition signInUser : Zod.ObjectSchema :=
  [ ("email", Zod.email (Some "Email is invalid"));
    ("password",
     Zod.string_
       [ Zod.min 8 "Password must be at least 8 characters";
         Zod.regex upper "Password must contain at least one uppercase letter";
         Zod.regex lower "Password must contain at least one lowercase letter";
         Zod.regex digit "Password must contain at least one number";
         Zod.regex special "Password must contain at least one special character" ]) ].

Definition signUpUser : Zod.ObjectSchema :=
  [ ("name", Zod.string_ [ Zod.min 2 "Name must be at least 2 characters" ]);
    ("email", Zod.email (Some "Email is invalid"));
    ("phone", Zod.string_ [ Zod.min 10 "Phone number must be at least 10 digits" ]);
    ("password",
     Zod.string_
       [ Zod.min 8 "Password must be at least 8 characters";
         Zod.regex upper "Password must contain at least one uppercase letter";
         Zod.regex lower "Password must contain at least one lowercase letter";
         Zod.regex digit "Password must contain at least one number";
         Zod.regex special "Password must contain at least one special character" ]) ].

Definition verifyEmailSchema : Zod.ObjectSchema :=
  [ ("email", Zod.email None) ].

Definition body_only (schema : Zod.ObjectSchema) : Utils.Schemas :=
  Utils.mkSchemas (Some schema) None None.

Definition signInUserSchema (req : FastifyRequest) : M HookResult :=
  mret (Utils.validateWithZod req (body_only signInUser)).

Definition signUpUserSchema (req : FastifyRequest) : M HookResult :=
  mret (Utils.validateWithZod req (body_only signUpUser)).

Definition sendOtpSchema (req : FastifyRequest) : M HookResult :=
  mret (Utils.validateWithZod req (body_only verifyEmailSchema)).

End UserValidationSchema.
End UserValidationSchema.

(** * [src/index.ts]: the top-level error handler *)

(** A thrown error as the handler reads it: [err.statusCode] (possibly
    undefined) and [err.message]. *)
Record FastifyError := mkError {
  statusCode : option Z;
  error_message : string
}.

Definition errorHandler (err : FastifyError) : Reply :=
  let status :=
    match statusCode err with
    | Some code =>
        if negb (code =? 0) && (400 <=? code) && (code <? 600) then code else 500
    | None => 500
    end in
  send status
       (BMessage (if status =? 500 then "Internal server error" else error_message err)).

(** An error thrown inside a handler rejects the handler's promise; Fastify
    hands it to the error handler above, whose reply is the response. *)
Definition thrown (err : FastifyError) : M Reply := mret (errorHandler err).

(** * The drizzle queries the controller issues *)

Module Drizzle.

(** [findFirst({ where })]: the first row, in store order, that satisfies
    the clause. *)
Definition findFirst {Row : Type} (where_ : Row → bool) (table : list Row) : option Row :=
  List.find where_ table.

(** [query.usersTable.findFirst({ where: eq(users.email, email) })] *)
Definition findUserByEmail (email : string) : M (option UserRow) :=
  emit (QueryUserByEmail email);;
  s ← get_store;
  mret (findFirst (λ users, bool_decide (user_email users = email)) (usersTable s)).

(** What the driver throws when the server refuses a statement; the error
    carries no [statusCode]. *)
Definition invalid_uuid (text : string) : FastifyError :=
  mkError None ("invalid input syntax for type uuid: " +:+ text).

Definition value_too_long : FastifyError :=
  mkError None "value too long for type character varying(255)".

(** [query.usersTable.findFirst({ where: eq(users.id, id) })]: the server
    reads the parameter as a [uuid] to compare it with the column, and
    refuses the query when the text denotes none. *)
Definition findUserById `{!Postgres} (id : string) : M (FastifyError + option UserRow) :=
  emit (QueryUserById id);;
  match uuid_in id with
  | None => mret (inl (invalid_uuid id))
  | Some value =>
      s ← get_store;
      mret (inr (findFirst (λ users, bool_decide (user_id users = value)) (usersTable s)))
  end.

(** The [where] clause
    [and(eq(otp.email, email), eq(otp.isUsed, false), eq(otp.code, code))].
    An [undefined] [code] is bound as NULL; a comparison with NULL (a NULL
    [is_used], a NULL parameter) is satisfied by no row. *)
Definition unused_match (email : string) (code : option string) (otp : OtpRow) : bool :=
  bool_decide (otp_email otp = email)
  && bool_decide (otp_isUsed otp = Some false)
  && bool_decide (Some (otp_code otp) = code).

Definition findUnusedOtp (email : string) (code : option string) : M (option OtpRow) :=
  emit (QueryOtp email code);;
  s ← get_store;
  mret (findFirst (unused_match email code) (otpTable s)).

(** The row the server stores for the submitted values: [name], [email],
    [password] and [phone] are [varchar(255)] columns, [id] and [created_at]
    are filled by the server; none when a value is refused. *)
Definition stored_user (name email phone password : string)
    (id : Uuid) (created_at : string) : option UserRow :=
  match Pg.varchar 255 name, Pg.varchar 255 email,
        Pg.varchar 255 password, Pg.varchar 255 phone with
  | Some name', Some email', Some password', Some phone' =>
      Some (mkUser id name' email' password' (Some phone') (Some created_at))
  | _, _, _, _ => None
  end.

(** [insert(usersTable).values({name, email, phone, password}).returning()]:
    the row as stored is returned; when a value is refused the statement
    throws and nothing is stored.  The event records the values submitted. *)
Definition insertUser (name email phone password : string)
    (id : Uuid) (created_at : string) : M (FastifyError + UserRow) :=
  emit (InsertUser (mkUser id name email password (Some phone) (Some created_at)));;
  match stored_user name email phone password id created_at with
  | Some row =>
      s ← get_store;
      put_store (mkStore (usersTable s ++ [row]) (otpTable s));;
      mret (inr row)
  | None => mret (inl value_too_long)
  end.

(** [insert(otpTable).values({email, code})]: [email] and [code] are
    [varchar] columns without a length; [is_used] takes its default. *)
Definition insertOtp (email code : string) (id : Uuid) : M unit :=
  let row := mkOtp id email code (Some false) in
  emit (InsertOtp row);;
  s ← get_store;
  put_store (mkStore (usersTable s) (otpTable s ++ [row])).

Definition set_used (email : string) (otp : OtpRow) : OtpRow :=
  if bool_decide (otp_email otp = email)
  then mkOtp (otp_id otp) (otp_email otp) (otp_code otp) (Some true)
  else otp.

(** [update(otpTable).set({ isUsed: true }).where(eq(otpTable.email, email))] *)
Definition markOtpUsed (email : string) : M unit :=
  emit (UpdateOtpUsed email);;
  s ← get_store;
  put_store (mkStore (usersTable s) (set_used email <$> otpTable s)).

End Drizzle.

(** * [src/users/user.controller.ts] *)

(** The request bodies, as the handlers destructure them.  [signUp] reads
    [otp] from whatever body reaches it: the value is [undefined] when the
    body holds no such property. *)
Record SignInBody := mkSignIn {
  signIn_email : string;
  signIn_password : string
}.

Record SignUpBody := mkSignUp {
  signUp_name : string;
  signUp_email : string;
  signUp_phone : string;
  signUp_password : string;
  signUp_otp : option string
}.

(** What the environment supplies while a handler runs: the ids and the
    timestamp the database server generates, the salt bcrypt draws, the
    integer [randomInt] returns and the clock reading at token issuance. *)
Record Env := mkEnv {
  env_uuid : Uuid;
  env_now : string;
  env_salt : string;
  env_randomInt : N;
  env_iat : Z
}.

Module UserController.
Section UserController.
Context `{!Bcrypt, !Jose, !Postgres}.

Definition token_cookie (token : string) : Cookie :=
  mkCookie "token" token true "lax" "/" (60 * 60 * (24 * 7)).

(** [{ id: user.id, email: user.email, name: user.name }]; the driver hands
    a [uuid] over as its text. *)
Definition payload_of (user : UserRow) : JwtPayload :=
  mkPayload (uuid_text (user_id user)) (user_email user) (user_name user).

Definition getUser (id : string) : M (FastifyError + option UserRow) :=
  Drizzle.findUserById id.

(** [getUserDetail]; [payload] is the identity the gate attached. *)
Definition getUserDetail (payload : JwtPayload) : M Reply :=
  user ← getUser (jwt_id payload);
  match user with
  | inl error => thrown error
  | inr user => mret (send 200 (BMessageData "User details fetched successfully" user))
  end.

Definition sendEmail (email : string) (env : Env) : M Reply :=
  let random := Utils.generate4DigitOTP (env_randomInt env) in
  Drizzle.insertOtp email random (env_uuid env);;
  mret (send 200 (BMessage "OTP sent successfully")).

Definition signIn (request : SignInBody) (env : Env) : M Reply :=
  let email := signIn_email request in
  let password := signIn_password request in
  user ← Drizzle.findUserByEmail email;
  match user with
  | None => mret (send 422 (BMessage "Invalid email or password"))
  | Some user =>
      if bool_decide (user_password user ≠ password)
      then mret (send 422 (BMessage "Please enter correct password"))
      else
        token ← Utils.encodeJWT (payload_of user) (Some "7d") (env_iat env);
        mret (mkReply 200 (BMessageData "Login successful" (Some user))
                      [token_cookie token])
  end.

Definition signUp (request : SignUpBody) (env : Env) : M Reply :=
  let name := signUp_name request in
  let email := signUp_email request in
  let phone := signUp_phone request in
  let password := signUp_password request in
  let recivedOtp := signUp_otp request in
  isEmailExist ← Drizzle.findUserByEmail email;
  match isEmailExist with
  | Some _ => mret (send 422 (BMessage "Email already exists"))
  | None =>
      isOtpValid ← Drizzle.findUnusedOtp email recivedOtp;
      match isOtpValid with
      | None => mret (send 422 (BMessage "Invalid OTP code either used or expired"))
      | Some _ =>
          hashedPassword ← Utils.hashPassword password (env_salt env);
          inserted ← Drizzle.insertUser name email phone hashedPassword
                                        (env_uuid env) (env_now env);
          match inserted with
          | inl error => thrown error
          | inr user =>
              Drizzle.markOtpUsed email;;
              encode ← Utils.encodeJWT (payload_of user) (Some "7d") (env_iat env);
              mret (mkReply 200 (BMessageData "Sign up successful" (Some user))
                            [token_cookie encode])
          end
      end
  end.

End UserController.
End UserController.

(** * The sign-up route [UserController.register] declares *)

Module Routes.
Section Routes.
Context `{!Bcrypt, !Jose, !ZodFormats}.

Definition string_at (props : gmap string Zod.JsValue) (key : string) : option string :=
  match props !! key with
  | Some (Zod.JString value) => Some value
  | _ => None
  end.

(** [const { name, email, phone, password, otp: recivedOtp } = request.body]:
    the four strings, and [otp] as the object holds it, [undefined] when it
    holds none.  A body whose [name], [email], [phone] or [password] is not
    a string, or whose [otp] is neither a string nor absent, is not given a
    reading. *)
Definition signUp_body (body : Zod.JsValue) : option SignUpBody :=
  match body with
  | Zod.JObject props =>
      name ← string_at props "name";
      email ← string_at props "email";
      phone ← string_at props "phone";
      password ← string_at props "password";
      match props !! "otp" with
      | None => Some (mkSignUp name email phone password None)
      | Some (Zod.JString otp) => Some (mkSignUp name email phone password (Some otp))
      | Some _ => None
      end
  | _ => None
  end.

(** [router.post("/sign-up", { preValidation: this.schema.signUpUserSchema },
    this.signUp)]: the hook first; unless it has sent a reply, the handler
    on the request as the hook left it.  The result is [None] when the
    handler would meet a body that has no reading. *)
Definition sign_up (env : Env) (request : FastifyRequest) : M (option Reply) :=
  r ← UserValidationSchema.signUpUserSchema request;
  match r.1 with
  | Some reply => mret (Some reply)
  | None =>
      match signUp_body (req_body r.2) with
      | Some body => reply ← UserController.signUp body env; mret (Some reply)
      | None => mret None
      end
  end.

End Routes.
End Routes.

(** * The specification's vocabulary *)

Module Spec.

Definition is_decimal_digit (c : Ascii.ascii) : bool :=
  (Ascii.N_of_ascii "0" <=? Ascii.N_of_ascii c)%N
  && (Ascii.N_of_ascii c <=? Ascii.N_of_ascii "9")%N.

Definition decimal_digit (d : N) : Ascii.ascii := Ascii.ascii_of_N (48 + d).

(** The zero-padded four-digit decimal representation of [n]: thousands,
    hundreds, tens, units. *)
Definition zero_padded4 (n : N) : string :=
  String (decimal_digit (n / 1000 mod 10))
    (String (decimal_digit (n / 100 mod 10))
       (String (decimal_digit (n / 10 mod 10))
          (String (decimal_digit (n mod 10)) EmptyString))).

(** The number a string of decimal digits denotes. *)
Definition decimal_value (s : string) : N :=
  foldl (λ acc c, acc * 10 + (Ascii.N_of_ascii c - 48))%N 0%N
        (String.list_ascii_of_string s).

(** The field path of an issue, as the details map spells it. *)
Definition field_path (issue : Zod.ZodIssue) : string :=
  JS.join "." (Utils.segment_toString <$> Zod.path issue).

(** The message the specification expects in the details for [field]: that
    of the first issue, in issue order, whose path is [field]; none when no
    issue concerns the field. *)
Definition first_message (field : string) (error : Zod.ZodError) : option string :=
  Zod.message <$>
    List.find (λ issue, bool_decide (field_path issue = field)) (Zod.issues error).

(** An issue whose message is not empty and whose path is not a name every
    object inherits. *)
Definition recordable (issue : Zod.ZodIssue) : Prop :=
  Zod.message issue ≠ "" ∧ field_path issue ∉ JS.Object_prototype_keys.

Definition check_message (c : Zod.Check) : string :=
  match c with
  | Zod.min _ message => message
  | Zod.regex _ message => message
  end.

(** A rule all of whose declared messages are non-empty. *)
Definition rule_messages_nonempty (rule : Zod.StringSchema) : bool :=
  match rule with
  | Zod.string_ checks =>
      forallb (λ c, negb (String.eqb (check_message c) "")) checks
  | Zod.email error => negb (bool_decide (error = Some ""))
  end.

(** A schema whose keys are not inherited names and whose messages are
    non-empty. *)
Definition schema_recordable (shape : Zod.ObjectSchema) : bool :=
  forallb (λ entry, negb (bool_decide (entry.1 ∈ JS.Object_prototype_keys))
                    && rule_messages_nonempty entry.2) shape.

(** A validation hook short-circuits on [schema]: whenever the request body
    fails the schema, the route replies 422 with the formatted issues without
    running the handler (the world is untouched, whatever the handler is),
    and the details give every field the message of its first issue and
    nothing else. *)
Definition short_circuits `{!ZodFormats}
    (hook : FastifyRequest → M HookResult) (schema : Zod.ObjectSchema) : Prop :=
  ∀ (handler : FastifyRequest → M Reply) (req : FastifyRequest) (w : World)
    (error : Zod.ZodError),
    Zod.safeParse email_pattern_test schema (req_body req) = Zod.Failure error →
    with_hook hook handler req w
    = (send 422 (BInvalid "Invalid body" (Utils.formatZodErrors error)), w)
    ∧ ∀ field, Utils.formatZodErrors error !! field = first_message field error.

(** An e-mail address is registered when some User row carries it. *)
Definition registered (email : string) (s : Store) : Prop :=
  ∃ user, user ∈ usersTable s ∧ user_email user = email.

(** The User row sign-in reads for [email]: the first one carrying it. *)
Definition user_with_email (email : string) (s : Store) : option UserRow :=
  List.find (λ user, bool_decide (user_email user = email)) (usersTable s).

(** An OTP row redeems [(email, code)] when it carries both and its [isUsed]
    flag is false; no row redeems an absent code. *)
Definition redeems (email : string) (code : option string) (otp : OtpRow) : Prop :=
  otp_email otp = email ∧ Some (otp_code otp) = code ∧ otp_isUsed otp = Some false.

Definition unused_otp_exists (email : string) (code : option string) (s : Store) : Prop :=
  ∃ otp, otp ∈ otpTable s ∧ redeems email code otp.

(** The events a computation appended to the trace. *)
Definition new_events (before after : World) : list Event :=
  drop (length (trace before)) (trace after).


Definition is_hash_call (e : Event) : Prop :=
  ∃ password saltRounds, e = BcryptHash password saltRounds.

Definition is_verify_call (e : Event) : Prop :=
  ∃ token, e = JwtVerify token.

(** The three ways the specification calls an [Authorization] header
    malformed. *)
Definition header_absent (authorization : option string) : Prop :=
  authorization = None.

Definition lacks_bearer_prefix (authorization : option string) : Prop :=
  ∃ value, authorization = Some value ∧ JS.startsWith value "Bearer " = false.

(** The token a header carries after the prefix: the text up to the next
    space, or to the end. *)
Fixpoint up_to_space (rest : string) : string :=
  match rest with
  | EmptyString => EmptyString
  | String c rest' =>
      if Ascii.eqb c " " then EmptyString else String c (up_to_space rest')
  end.

Definition empty_bearer_token (authorization : option string) : Prop :=
  ∃ rest, authorization = Some ("Bearer " +:+ rest) ∧ up_to_space rest = "".



(** The rule a schema declares for [field]. *)
Definition rule_of (shape : Zod.ObjectSchema) (field : string) : option Zod.StringSchema :=
  snd <$> List.find (λ entry, String.eqb entry.1 field) shape.

(** The issues of an error that concern [field], in issue order. *)
Definition issues_at (field : string) (error : Zod.ZodError) : list Zod.ZodIssue :=
  List.filter (λ issue, bool_decide (field_path issue = field)) (Zod.issues error).

Definition first_nonempty (messages : list string) : option string :=
  List.find (λ m, negb (String.eqb m "")) messages.

(** What the details hold for [field], for any error whatever: nothing under
    a name every object inherits, nothing for a field without issue, and
    otherwise the first non-empty message raised for the field (the empty
    string when all its messages are empty). *)
Definition recorded_message (field : string) (error : Zod.ZodError) : option string :=
  if bool_decide (field ∈ JS.Object_prototype_keys) then None
  else match issues_at field error with
       | [] => None
       | at_field => Some (default "" (first_nonempty (Zod.message <$> at_field)))
       end.

(** Character ranges, and strings that contain a character of some kind. *)
Definition in_range (lo hi c : Ascii.ascii) : Prop :=
  (Ascii.N_of_ascii lo ≤ Ascii.N_of_ascii c ≤ Ascii.N_of_ascii hi)%N.

Definition is_upper (c : Ascii.ascii) : Prop := in_range "A" "Z" c.
Definition is_lower (c : Ascii.ascii) : Prop := in_range "a" "z" c.
Definition is_digit (c : Ascii.ascii) : Prop := in_range "0" "9" c.

Definition contains (kind : Ascii.ascii → Prop) (s : string) : Prop :=
  ∃ c, In c (String.list_ascii_of_string s) ∧ kind c.

(** A password the schemas accept: at least 8 characters, with an uppercase
    letter, a lowercase letter, a digit and a character that is none of
    these. *)
Definition strong_password (password : string) : Prop :=
  (8 ≤ String.length password)%nat
  ∧ contains is_upper password
  ∧ contains is_lower password
  ∧ contains is_digit password
  ∧ contains (λ c, ¬ is_upper c ∧ ¬ is_lower c ∧ ¬ is_digit c) password.

(** An error the gate reports as an expired token. *)
Definition is_expiry (error : JoseError) : Prop :=
  err_code error = Some "ERR_JWT_EXPIRED" ∨ err_name error = Some "JWTExpired".

(** No two User rows carry the same address, or the same id. *)
Definition emails_unique (s : Store) : Prop := NoDup (user_email <$> usersTable s).
Definition ids_unique (s : Store) : Prop := NoDup (user_id <$> usersTable s).

(** A request with another body, or with an identity attached. *)
Definition with_body (request : FastifyRequest) (body : Zod.JsValue) : FastifyRequest :=
  mkRequest body (req_query request) (req_params request)
            (req_authorization request) (req_user request).

Definition with_user (request : FastifyRequest) (payload : JwtPayload) : FastifyRequest :=
  mkRequest (req_body request) (req_query request) (req_params request)
            (req_authorization request) (Some payload).

End Spec.

(** * Concrete libraries and data, for the instances the theorems are run on *)

Module Sample.

(** The first [n] characters of [s], filled up with dots. *)
Fixpoint fit (n : nat) (s : string) : string :=
  match n with
  | O => EmptyString
  | S k =>
      match s with
      | EmptyString => String "." (fit k EmptyString)
      | String c rest => String c (fit k rest)
      end
  end.

(** A stand-in for bcrypt with the shape of its output: version, cost, salt,
    then a digest (here the reversed password), 60 characters in all. *)
Definition bcrypt : Bcrypt.
Proof.
  refine {| bcrypt_hash password saltRounds salt :=
              fit 60 ("$2b$" +:+ JS.toString (N.of_nat saltRounds) +:+ "$" +:+ salt
                      +:+ String.rev password) |}.
  intros password saltRounds salt. generalize 60%nat as n.
  generalize ("$2b$" +:+ JS.toString (N.of_nat saltRounds) +:+ "$" +:+ salt
              +:+ String.rev password) as s.
  intros s n. revert s.
  induction n as [|n IH]; intros s; [reflexivity|].
  destruct s as [|c rest]; simpl; f_equal; apply IH.
Defined.

(** A stand-in for the server's uuid input: it accepts the printed form
    only. *)
Definition postgres : Postgres.
Proof.
  refine {| uuid_in text :=
              match decide (Pg.uuid_text_form text = true) with
              | left form => Some (mkUuid text form)
              | right _ => None
              end |}.
  intros [text form]. simpl.
  destruct (decide (Pg.uuid_text_form text = true)) as [form' | Hno]; [|done].
  by rewrite (proof_irrel form' form).
Defined.

Definition uuid_0 : Uuid := mkUuid "3f2b8c1e-0000-4000-8000-000000000000" eq_refl.
Definition uuid_1 : Uuid := mkUuid "3f2b8c1e-0000-4000-8000-000000000001" eq_refl.
Definition uuid_2 : Uuid := mkUuid "3f2b8c1e-0000-4000-8000-000000000002" eq_refl.
Definition uuid_3 : Uuid := mkUuid "3f2b8c1e-0000-4000-8000-000000000003" eq_refl.

Definition alice : JwtPayload :=
  mkPayload "3f2b8c1e-0000-4000-8000-000000000001" "a@b.com" "Al".

(** A payload whose id is no uuid, as a token signed with the secret by
    another issuer could carry. *)
Definition outsider : JwtPayload := mkPayload "42" "x@y.com" "Xi".

Definition alice_token : string := "jwt.3f2b8c1e-0000-4000-8000-000000000001.7d".
Definition stale_token : string := "jwt.3f2b8c1e-0000-4000-8000-000000000000.7d".

(** A stand-in for jose: one token verifies, one has expired, every other
    string is rejected as malformed. *)
Definition jose : Jose :=
  {| SignJWT_sign payload expiresIn iat := "jwt." +:+ jwt_id payload +:+ "." +:+ expiresIn;
     jwtVerify token :=
       if String.eqb token alice_token then inl alice
       else if String.eqb token stale_token
       then inr (mkJoseError (Some "ERR_JWT_EXPIRED") (Some "JWTExpired")
                             "exp claim timestamp check failed")
       else inr (mkJoseError (Some "ERR_JWS_INVALID") (Some "JWSInvalid")
                             "Invalid Compact JWS") |}.

(** A stand-in for the e-mail pattern: some character is an at sign. *)
Definition formats : ZodFormats :=
  {| email_pattern_test input := Zod.test (Zod.Range "@" "@") input |}.

Definition env : Env := mkEnv uuid_1 "2024-01-01 00:00:00" "saltsaltsaltsaltsalt22" 42 1704067200.

Definition empty : World := mkWorld (mkStore [] []) [].

(** The store after [send-email] issued two codes for one address. *)
Definition two_codes : World :=
  mkWorld (mkStore [] [ mkOtp uuid_1 "a@b.com" "0042" (Some false);
                        mkOtp uuid_2 "a@b.com" "7311" (Some false);
                        mkOtp uuid_3 "c@d.com" "0042" (Some false) ]) [].

Definition al_row : UserRow :=
  mkUser uuid_0 "Al" "a@b.com" "Abc123!@" (Some "1234567890") (Some "2023-12-31 00:00:00").

(** A store where the address is registered and a fresh code was issued for
    it afterwards. *)
Definition registered : World :=
  mkWorld (mkStore [ al_row ] [ mkOtp uuid_1 "a@b.com" "0042" (Some false) ]) [].

Definition sign_up : SignUpBody :=
  mkSignUp "Al" "a@b.com" "1234567890" "Abc123!@" (Some "0042").

Definition request (authorization : option string) : FastifyRequest :=
  mkRequest Zod.JUndefined Zod.JUndefined Zod.JUndefined authorization None.

(** A sign-up body with a one-letter name and the password ["abc12345"]. *)
Definition weak_body : Zod.JsValue :=
  Zod.JObject (list_to_map
    [ ("name", Zod.JString "A");
      ("email", Zod.JString "a@b.com");
      ("phone", Zod.JString "1234567890");
      ("password", Zod.JString "abc12345");
      ("otp", Zod.JString "0042") ]).

Definition weak_request : FastifyRequest :=
  mkRequest weak_body Zod.JUndefined Zod.JUndefined None None.

Definition weak_issues : Zod.ZodError :=
  Zod.mkZodError
    [ Zod.mkIssue [Zod.Key "name"] "Name must be at least 2 characters";
      Zod.mkIssue [Zod.Key "password"]
                  "Password must contain at least one uppercase letter";
      Zod.mkIssue [Zod.Key "password"]
                  "Password must contain at least one special character" ].

(** A well-formed sign-up body, with its code, and the same body as the
    sign-up hook hands it on. *)
Definition good_body : Zod.JsValue :=
  Zod.JObject (list_to_map
    [ ("name", Zod.JString "Al");
      ("email", Zod.JString "a@b.com");
      ("phone", Zod.JString "1234567890");
      ("password", Zod.JString "Abc123!@");
      ("otp", Zod.JString "0042") ]).

Definition good_request : FastifyRequest :=
  mkRequest good_body Zod.JUndefined Zod.JUndefined None None.

Definition parsed_body : Zod.JsValue :=
  Zod.JObject (list_to_map
    [ ("name", Zod.JString "Al");
      ("email", Zod.JString "a@b.com");
      ("phone", Zod.JString "1234567890");
      ("password", Zod.JString "Abc123!@") ]).

Definition login_body : Zod.JsValue :=
  Zod.JObject (list_to_map
    [ ("email", Zod.JString "a@b.com");
      ("password", Zod.JString "Abc123!@");
      ("remember", Zod.JBool true) ]).

Definition login_request : FastifyRequest :=
  mkRequest login_body Zod.JUndefined Zod.JUndefined None None.

Definition email_body : Zod.JsValue :=
  Zod.JObject (list_to_map [ ("email", Zod.JString "a@b.com") ]).

Definition email_request : FastifyRequest :=
  mkRequest email_body Zod.JUndefined Zod.JUndefined None None.

(** A query schema, and body and query schemas together. *)
Definition page_query : Zod.ObjectSchema :=
  [ ("page", Zod.string_ [ Zod.min 1 "Page is required" ]) ].

Definition body_and_query : Utils.Schemas :=
  Utils.mkSchemas (Some [ ("email", Zod.email None) ]) (Some page_query) None.

(** The store of [registered] with the row under the id the sample token
    names. *)
Definition al_row_1 : UserRow :=
  mkUser uuid_1 "Al" "a@b.com" "Abc123!@" (Some "1234567890") (Some "2023-12-31 00:00:00").

Definition member : World := mkWorld (mkStore [ al_row_1 ] []) [].

(** A store with one registered address and a fresh code for another, and
    the sign-up that redeems the code. *)
Definition one_member : World :=
  mkWorld (mkStore [ al_row ] [ mkOtp uuid_3 "c@d.com" "0042" (Some false) ]) [].

Definition cy_sign_up : SignUpBody :=
  mkSignUp "Cy" "c@d.com" "0987654321" "Xyz987#$" (Some "0042").


End Sample.

(** * Theorems *)

(** ** The OTP generator *)

Lemma toString_go_step (fuel : nat) (n : N) (acc : string) :
  JS.toString_go (S fuel) n acc
  = if (n / 10 =? 0)%N then String (JS.digit (n mod 10)%N) acc
    else JS.toString_go fuel (n / 10)%N (String (JS.digit (n mod 10)%N) acc).
Proof. reflexivity. Qed.

(** The digits [toString] writes for a number below 10000, by magnitude. *)
Lemma toString_below_10000 (n : N) :
  (n < 10000)%N →
  JS.toString n
  = let d i := JS.digit (n / i mod 10)%N in
    if (n <? 10)%N then String (d 1%N) ""
    else if (n <? 100)%N then String (d 10%N) (String (d 1%N) "")
    else if (n <? 1000)%N then String (d 100%N) (String (d 10%N) (String (d 1%N) ""))
    else String (d 1000%N) (String (d 100%N) (String (d 10%N) (String (d 1%N) ""))).
Proof.
  intros Hlt. unfold JS.toString. cbv zeta. rewrite N.div_1_r.
  destruct (N.ltb_spec n 10) as [H10|H10].
  { rewrite toString_go_step.
    destruct (N.eqb_spec (n / 10) 0) as [_|Hne]; [reflexivity|].
    exfalso. apply Hne. by apply N.div_small. }
  destruct (N.to_nat n) as [|[|[|fuel]]] eqn:Hfuel; try lia.
  rewrite !toString_go_step.
  replace (n / 10 / 10 / 10 / 10)%N with 0%N
    by (rewrite !N.Div0.div_div; symmetry; by apply N.div_small).
  replace (n / 10 / 10 / 10)%N with (n / 1000)%N by (by rewrite !N.Div0.div_div).
  replace (n / 10 / 10)%N with (n / 100)%N by (by rewrite N.Div0.div_div).
  assert (Hdiv : ∀ k, (0 < k)%N → (k ≤ n)%N → (n / k)%N ≠ 0%N).
  { intros k Hk Hle Hzero. apply N.div_small_iff in Hzero; lia. }
  destruct (N.eqb_spec (n / 10) 0) as [H|_]; [by apply Hdiv in H|].
  destruct (N.ltb_spec n 100) as [Hn|Hn].
  { by rewrite (N.div_small n 100). }
  destruct (N.eqb_spec (n / 100) 0) as [H|_]; [by apply Hdiv in H|].
  destruct (N.ltb_spec n 1000) as [Hk|Hk].
  { by rewrite (N.div_small n 1000). }
  destruct (N.eqb_spec (n / 1000) 0) as [H|_]; [by apply Hdiv in H|].
  reflexivity.
Qed.

Lemma digit_decimal (d : N) :
  (d < 10)%N →
  JS.digit d = Spec.decimal_digit d
  ∧ Spec.is_decimal_digit (JS.digit d) = true
  ∧ (Ascii.N_of_ascii (JS.digit d) - 48 = d)%N.
Proof.
  intros Hd.
  assert (Hcases : d ∈ [0; 1; 2; 3; 4; 5; 6; 7; 8; 9]%N).
  { apply list_elem_of_In.
    destruct d as [|p]; [by left|]. simpl.
    do 10 (destruct p as [p|p|]; try lia; auto 12). }
  repeat (apply elem_of_cons in Hcases as [->|Hcases]; [by vm_compute|]).
  by apply elem_of_nil in Hcases.
Qed.

(** The generator writes the zero-padded representation. *)
Lemma generate4DigitOTP_zero_padded (n : N) :
  (n < 10000)%N → Utils.generate4DigitOTP n = Spec.zero_padded4 n.
Proof.
  intros Hlt. unfold Utils.generate4DigitOTP, Spec.zero_padded4.
  rewrite (toString_below_10000 n Hlt). cbv beta zeta. rewrite N.div_1_r.
  destruct (N.ltb_spec n 10); [|destruct (N.ltb_spec n 100); [|destruct (N.ltb_spec n 1000)]];
    unfold JS.padStart; simpl; unfold String.append; simpl;
    rewrite ?(N.div_small n 10), ?(N.div_small n 100), ?(N.div_small n 1000) by lia;
    reflexivity.
Qed.

(** C8. Every value [generate4DigitOTP] returns, for an integer [drawn] that
    [randomInt(0, 10_000)] can return, is a string of exactly four decimal
    digit characters, equal to the zero-padded decimal representation of
    [drawn], which lies in the range 0000 to 9999 and is recovered by reading
    the string as a number. *)
Theorem generate4DigitOTP_four_digits (drawn : N) :
  Utils.randomInt 0 10000 drawn →
  let otp := Utils.generate4DigitOTP drawn in
  String.length otp = 4%nat
  ∧ Forall (λ c, Spec.is_decimal_digit c = true) (String.list_ascii_of_string otp)
  ∧ otp = Spec.zero_padded4 drawn
  ∧ Spec.decimal_value otp = drawn
  ∧ (0 ≤ drawn ≤ 9999)%N.
Proof.
  intros [_ Hlt] otp. subst otp.
  rewrite (generate4DigitOTP_zero_padded drawn Hlt).
  assert (Hd : ∀ i, (drawn / i mod 10 < 10)%N) by (intros i; by apply N.mod_lt).
  pose proof (digit_decimal _ (Hd 1000%N)) as (_ & H3 & V3).
  pose proof (digit_decimal _ (Hd 100%N)) as (_ & H2 & V2).
  pose proof (digit_decimal _ (Hd 10%N)) as (_ & H1 & V1).
  pose proof (digit_decimal _ (N.mod_lt drawn 10 ltac:(done))) as (_ & H0 & V0).
  unfold Spec.zero_padded4. fold JS.digit.
  change Spec.decimal_digit with JS.digit.
  split; [reflexivity|]. split; [|split; [reflexivity|split]].
  - simpl. repeat (apply Forall_cons; split; [done|]). apply Forall_nil_2.
  - unfold Spec.decimal_value. simpl. rewrite V3, V2, V1, V0.
    replace (drawn / 100)%N with (drawn / 10 / 10)%N by (by rewrite N.Div0.div_div).
    replace (drawn / 1000)%N with (drawn / 10 / 10 / 10)%N by (by rewrite !N.Div0.div_div).
    assert (Hsmall : (drawn / 10 / 10 / 10 < 10)%N)
      by (do 3 apply N.Div0.div_lt_upper_bound; lia).
    rewrite (N.mod_small _ _ Hsmall).
    pose proof (N.div_mod drawn 10 ltac:(done)).
    pose proof (N.div_mod (drawn / 10) 10 ltac:(done)).
    pose proof (N.div_mod (drawn / 10 / 10) 10 ltac:(done)).
    lia.
  - lia.
Qed.

Lemma generate4DigitOTP_four_digits_witness :
  Utils.randomInt 0 10000 42
  ∧ Utils.generate4DigitOTP 42 = "0042"
  ∧ String.length (Utils.generate4DigitOTP 42) = 4%nat.
Proof.
  assert (H : Utils.randomInt 0 10000 42) by (unfold Utils.randomInt; lia).
  split; [exact H|]. split; [reflexivity|].
  exact (proj1 (generate4DigitOTP_four_digits 42 H)).
Defined.

(** ** The password rule *)

(** C9. The password rule of the sign-up schema (the same rule the sign-in
    schema declares: at least 8 characters, an uppercase letter, a lowercase
    letter, a digit, a character that is neither letter nor digit) rejects
    ["abc12345"], reporting the missing uppercase letter and the missing
    special character, and accepts ["Abc123!@"] with no issue. *)
Theorem password_rule_examples `{!ZodFormats} :
  ∃ rule,
    Spec.rule_of UserValidationSchema.signUpUser "password" = Some rule
    ∧ Spec.rule_of UserValidationSchema.signInUser "password" = Some rule
    ∧ Zod.parse_string email_pattern_test rule (Zod.JString "abc12345")
      = [ Zod.mkIssue [] "Password must contain at least one uppercase letter";
          Zod.mkIssue [] "Password must contain at least one special character" ]
    ∧ Zod.parse_string email_pattern_test rule (Zod.JString "Abc123!@") = [].
Proof.
  eexists. split; [reflexivity|]. split; [reflexivity|]. split; reflexivity.
Qed.

(** ** The top-level error handler *)

(** C6. For every error reaching the top-level handler the reply is the
    envelope [{message}]; its status is the error's [statusCode] when that
    code lies in 400..599 and 500 otherwise (also when the error carries no
    code); and when the status is 500 the message is the fixed generic string,
    whatever the error's own message says, while any other status carries the
    error's message. *)
Theorem errorHandler_envelope (err : FastifyError) :
  ∃ message,
    errorHandler err = mkReply (status (errorHandler err)) (BMessage message) []
    ∧ match statusCode err with
      | Some code =>
          if bool_decide (400 ≤ code ≤ 599) then status (errorHandler err) = code
          else status (errorHandler err) = 500
      | None => status (errorHandler err) = 500
      end
    ∧ (if bool_decide (status (errorHandler err) = 500)
       then message = "Internal server error"
       else message = error_message err).
Proof.
  destruct err as [[code|] msg]; unfold errorHandler; simpl.
  - eexists. split; [reflexivity|].
    destruct (negb (code =? 0) && (400 <=? code) && (code <? 600)) eqn:Hguard.
    + apply andb_prop in Hguard as [Hguard Hlt]. apply andb_prop in Hguard as [_ Hge].
      apply Z.leb_le in Hge. apply Z.ltb_lt in Hlt.
      split; [case_bool_decide; [reflexivity | lia]|].
      case_bool_decide as H500.
      * subst code. reflexivity.
      * apply Z.eqb_neq in H500. by rewrite H500.
    + split.
      * case_bool_decide as Hrange; [|reflexivity].
        assert ((code =? 0) = false) as E0 by (apply Z.eqb_neq; lia).
        assert ((400 <=? code) = true) as E1 by (apply Z.leb_le; lia).
        assert ((code <? 600) = true) as E2 by (apply Z.ltb_lt; lia).
        rewrite E0, E1, E2 in Hguard. discriminate.
      * reflexivity.
  - exists "Internal server error". split; [reflexivity|]. split; reflexivity.
Qed.

(** ** Store lookups *)

Lemma findFirst_None {Row : Type} (where_ : Row → bool) (table : list Row) :
  Drizzle.findFirst where_ table = None ↔ ∀ row, row ∈ table → where_ row = false.
Proof.
  unfold Drizzle.findFirst. induction table as [|r table IH]; simpl.
  - split; [|done]. intros _ row Hrow. by apply elem_of_nil in Hrow.
  - destruct (where_ r) eqn:Hr.
    + split; [done|]. intros Hall. rewrite (Hall r) in Hr; [done | by left].
    + rewrite IH. split.
      * intros Hall row [->|Hin]%elem_of_cons; auto.
      * intros Hall row Hin. apply Hall. by right.
Qed.

Lemma findFirst_Some {Row : Type} (where_ : Row → bool) (table : list Row) (row : Row) :
  Drizzle.findFirst where_ table = Some row → row ∈ table ∧ where_ row = true.
Proof.
  intros [Hin Hrow]%find_some. split; [by apply list_elem_of_In | done].
Qed.

Lemma user_with_email_None (email : string) (s : Store) :
  Spec.user_with_email email s = None ↔ ¬ Spec.registered email s.
Proof.
  unfold Spec.user_with_email, Spec.registered.
  rewrite (findFirst_None (λ user, bool_decide (user_email user = email))). split.
  - intros Hall (user & Hin & Hemail). apply Hall in Hin.
    by apply bool_decide_eq_false in Hin.
  - intros Hno user Hin. apply bool_decide_eq_false. intros Hemail. apply Hno. eauto.
Qed.

Lemma user_with_email_Some (email : string) (s : Store) (user : UserRow) :
  Spec.user_with_email email s = Some user →
  user ∈ usersTable s ∧ user_email user = email.
Proof.
  intros [Hin Heq]%findFirst_Some. split; [done|]. by apply bool_decide_eq_true in Heq.
Qed.

Lemma registered_user_with_email (email : string) (s : Store) :
  Spec.registered email s → ∃ user, Spec.user_with_email email s = Some user.
Proof.
  intros Hreg. destruct (Spec.user_with_email email s) as [user|] eqn:Hfind; [eauto|].
  by apply user_with_email_None in Hfind.
Qed.

Lemma unused_match_redeems (email : string) (code : option string) (otp : OtpRow) :
  Drizzle.unused_match email code otp = true ↔ Spec.redeems email code otp.
Proof.
  unfold Drizzle.unused_match, Spec.redeems.
  rewrite !andb_true_iff, !bool_decide_eq_true. tauto.
Qed.

Lemma findUnusedOtp_None (email : string) (code : option string) (s : Store) :
  Drizzle.findFirst (Drizzle.unused_match email code) (otpTable s) = None
  ↔ ¬ Spec.unused_otp_exists email code s.
Proof.
  rewrite findFirst_None. unfold Spec.unused_otp_exists. split.
  - intros Hall (otp & Hin & Hred). apply unused_match_redeems in Hred.
    rewrite (Hall otp Hin) in Hred. done.
  - intros Hno otp Hin. destruct (Drizzle.unused_match email code otp) eqn:Hm; [|done].
    exfalso. apply Hno. exists otp. split; [done|]. by apply unused_match_redeems.
Qed.

(** ** What the handlers compute *)

Lemma varchar_fits (n : nat) (value : string) :
  (String.length value ≤ n)%nat → Pg.varchar n value = Some value.
Proof.
  intros Hfit. unfold Pg.varchar.
  by rewrite (proj2 (Nat.leb_le _ _) Hfit).
Qed.

Lemma substring_length_le (n : nat) (value : string) :
  (String.length (String.substring 0 n value) ≤ n)%nat.
Proof.
  revert value. induction n as [|n IH]; intros value.
  - destruct value; simpl; lia.
  - destruct value as [|c rest]; simpl; [lia|]. specialize (IH rest). lia.
Qed.

(** A stored value is the submitted one when that fits, and is shorter
    otherwise. *)
Lemma varchar_Some (n : nat) (value stored : string) :
  Pg.varchar n value = Some stored →
  ((String.length value ≤ n)%nat ∧ stored = value)
  ∨ ((n < String.length value)%nat ∧ stored ≠ value).
Proof.
  unfold Pg.varchar. destruct (String.length value <=? n)%nat eqn:Hfit.
  - intros [= <-]. left. split; [by apply Nat.leb_le | done].
  - apply Nat.leb_gt in Hfit. destruct (forallb _ _); [|done].
    intros [= <-]. right. split; [done|]. intros Hsame.
    pose proof (substring_length_le n value) as Hle. rewrite Hsame in Hle. lia.
Qed.



Lemma stored_user_Some (name email phone password : string) (id : Uuid)
    (created_at : string) (row : UserRow) :
  Drizzle.stored_user name email phone password id created_at = Some row →
  user_id row = id
  ∧ Pg.varchar 255 name = Some (user_name row)
  ∧ Pg.varchar 255 email = Some (user_email row)
  ∧ Pg.varchar 255 password = Some (user_password row)
  ∧ (∃ phone', Pg.varchar 255 phone = Some phone' ∧ user_phone row = Some phone')
  ∧ user_createdAt row = Some created_at.
Proof.
  unfold Drizzle.stored_user.
  destruct (Pg.varchar 255 name) as [name'|]; [|done].
  destruct (Pg.varchar 255 email) as [email'|]; [|done].
  destruct (Pg.varchar 255 password) as [password'|]; [|done].
  destruct (Pg.varchar 255 phone) as [phone'|]; [|done].
  intros [= <-]. simpl. split_and!; eauto.
Qed.


Lemma varchar_hash `{!Bcrypt} (data salt : string) (saltRounds : nat) :
  Pg.varchar 255 (bcrypt_hash data saltRounds salt) = Some (bcrypt_hash data saltRounds salt).
Proof. apply varchar_fits. rewrite bcrypt_hash_length. apply (Nat.leb_le 60 255). reflexivity. Qed.

Section Handlers.
Context `{!Bcrypt, !Jose}.

Lemma signIn_run (request : SignInBody) (env : Env) (w : World) :
  UserController.signIn request env w =
  let queried := mkWorld (store w) (trace w ++ [QueryUserByEmail (signIn_email request)]) in
  match Spec.user_with_email (signIn_email request) (store w) with
  | None => (send 422 (BMessage "Invalid email or password"), queried)
  | Some user =>
      if bool_decide (user_password user ≠ signIn_password request)
      then (send 422 (BMessage "Please enter correct password"), queried)
      else (mkReply 200 (BMessageData "Login successful" (Some user))
              [UserController.token_cookie
                 (SignJWT_sign (UserController.payload_of user) "7d" (env_iat env))],
            mkWorld (store w)
              ((trace w ++ [QueryUserByEmail (signIn_email request)])
               ++ [JwtSign (UserController.payload_of user) "7d"]))
  end.
Proof.
  unfold UserController.signIn, Drizzle.findUserByEmail, Spec.user_with_email,
    Drizzle.findFirst, Utils.encodeJWT, emit, get_store, mbind, M_bind, mret, M_ret.
  simpl.
  destruct (find _ _) as [user|]; [|reflexivity].
  destruct (bool_decide _); reflexivity.
Qed.

Lemma signUp_run (request : SignUpBody) (env : Env) (w : World) :
  UserController.signUp request env w =
  let email := signUp_email request in
  let queried := trace w ++ [QueryUserByEmail email] in
  match Spec.user_with_email email (store w) with
  | Some _ => (send 422 (BMessage "Email already exists"), mkWorld (store w) queried)
  | None =>
      let looked_up := queried ++ [QueryOtp email (signUp_otp request)] in
      match Drizzle.findFirst (Drizzle.unused_match email (signUp_otp request))
                              (otpTable (store w)) with
      | None => (send 422 (BMessage "Invalid OTP code either used or expired"),
                 mkWorld (store w) looked_up)
      | Some _ =>
          let hashedPassword := bcrypt_hash (signUp_password request) 10 (env_salt env) in
          let submitted := mkUser (env_uuid env) (signUp_name request) email hashedPassword
                                  (Some (signUp_phone request)) (Some (env_now env)) in
          let attempted := (looked_up ++ [BcryptHash (signUp_password request) 10])
                           ++ [InsertUser submitted] in
          match Drizzle.stored_user (signUp_name request) email (signUp_phone request)
                                    hashedPassword (env_uuid env) (env_now env) with
          | None => (send 500 (BMessage "Internal server error"),
                     mkWorld (store w) attempted)
          | Some user =>
              (mkReply 200 (BMessageData "Sign up successful" (Some user))
                 [UserController.token_cookie
                    (SignJWT_sign (UserController.payload_of user) "7d" (env_iat env))],
               mkWorld
                 (mkStore (usersTable (store w) ++ [user])
                          (Drizzle.set_used email <$> otpTable (store w)))
                 ((attempted ++ [UpdateOtpUsed email])
                  ++ [JwtSign (UserController.payload_of user) "7d"]))
          end
      end
  end.
Proof.
  unfold UserController.signUp, Drizzle.findUserByEmail, Drizzle.findUnusedOtp,
    Drizzle.insertUser, Drizzle.markOtpUsed, Utils.hashPassword, Utils.encodeJWT,
    Spec.user_with_email, Drizzle.findFirst, thrown,
    emit, get_store, put_store, mbind, M_bind, mret, M_ret.
  simpl.
  destruct (find _ (usersTable _)) as [user|]; [reflexivity|].
  destruct (find _ (otpTable _)) as [otp|]; [|reflexivity].
  destruct (Drizzle.stored_user _ _ _ _ _ _) as [row|]; reflexivity.
Qed.

End Handlers.

Lemma new_events_appended (w : World) (s : Store) (events : list Event) :
  Spec.new_events w (mkWorld s (trace w ++ events)) = events.
Proof. unfold Spec.new_events. simpl. by rewrite drop_app_length. Qed.

(** ** Sign-up *)

Section SignUp.
Context `{!Bcrypt, !Jose}.

(** C5. For every sign-up request whose email already has a User row the
    reply is status 422 with message "Email already exists", whatever OTP the
    request carries, and the store is left unchanged: the only call the
    handler has made is the duplicate-email query, so no OTP lookup, hash,
    insert or update has run. *)
Theorem signUp_email_already_exists (request : SignUpBody) (env : Env) (w : World) :
  Spec.registered (signUp_email request) (store w) →
  let result := UserController.signUp request env w in
  result.1 = send 422 (BMessage "Email already exists")
  ∧ store result.2 = store w
  ∧ Spec.new_events w result.2 = [QueryUserByEmail (signUp_email request)].
Proof.
  intros [user Hfind]%registered_user_with_email. simpl.
  rewrite signUp_run. simpl. rewrite Hfind. simpl.
  split; [done|]. split; [done|]. apply new_events_appended.
Qed.

(** C2. Within one sign-up request, run on its own, a User row is inserted
    (the user table changes, or an insert into it is issued) only if, when
    the OTP is looked up, an OTP row exists whose email is the submitted
    email, whose code is the submitted otp and whose isUsed flag is false; if
    no such row exists the request is rejected with status 422, the store is
    unchanged and no insert is issued. *)
Theorem signUp_requires_unused_otp (request : SignUpBody) (env : Env) (w : World) :
  let result := UserController.signUp request env w in
  let matching := Spec.unused_otp_exists (signUp_email request) (signUp_otp request) (store w) in
  ((usersTable (store result.2) ≠ usersTable (store w)
    ∨ ∃ row, InsertUser row ∈ Spec.new_events w result.2) → matching)
  ∧ (¬ matching →
     status result.1 = 422
     ∧ store result.2 = store w
     ∧ ∀ row, InsertUser row ∉ Spec.new_events w result.2).
Proof.
  simpl. rewrite signUp_run. simpl.
  destruct (Spec.user_with_email _ _) as [existing|] eqn:Hexisting; simpl.
  - rewrite new_events_appended. split.
    + intros [Hchanged|[row Hin]]; [done|].
      apply list_elem_of_singleton in Hin. discriminate.
    + intros _. split; [done|]. split; [done|].
      intros row Hin. apply list_elem_of_singleton in Hin. discriminate.
  - destruct (Drizzle.findFirst _ _) as [otp|] eqn:Hotp; simpl.
    + apply findFirst_Some in Hotp as [Hin Hmatch].
      apply unused_match_redeems in Hmatch.
      split; [intros _; by exists otp|].
      intros Hno. exfalso. apply Hno. by exists otp.
    + rewrite <- !app_assoc, new_events_appended. split.
      * intros [Hchanged|[row Hin]]; [done|].
        apply elem_of_cons in Hin as [Hin|Hin]; [discriminate|].
        apply list_elem_of_singleton in Hin. discriminate.
      * intros _. split; [done|]. split; [done|].
        intros row Hin.
        apply elem_of_cons in Hin as [Hin|Hin]; [discriminate|].
        apply list_elem_of_singleton in Hin. discriminate.
Qed.

End SignUp.

Lemma signUp_email_already_exists_witness :
  Spec.registered "a@b.com" (store Sample.registered)
  ∧ Spec.unused_otp_exists "a@b.com" (Some "0042") (store Sample.registered)
  ∧ (@UserController.signUp Sample.bcrypt Sample.jose
       Sample.sign_up Sample.env Sample.registered).1
    = send 422 (BMessage "Email already exists").
Proof.
  assert (H : Spec.registered (signUp_email Sample.sign_up) (store Sample.registered)).
  { exists Sample.al_row. split; [apply list_elem_of_here | reflexivity]. }
  split; [exact H|]. split.
  - eexists. split; [apply list_elem_of_here | done].
  - exact (proj1 (@signUp_email_already_exists Sample.bcrypt Sample.jose
                    Sample.sign_up Sample.env Sample.registered H)).
Defined.

Lemma signUp_requires_unused_otp_witness :
  ¬ Spec.unused_otp_exists "a@b.com" (Some "0042") (store Sample.empty)
  ∧ status (@UserController.signUp Sample.bcrypt Sample.jose
              Sample.sign_up Sample.env Sample.empty).1 = 422
  ∧ store (@UserController.signUp Sample.bcrypt Sample.jose
             Sample.sign_up Sample.env Sample.empty).2 = store Sample.empty.
Proof.
  assert (H : ¬ Spec.unused_otp_exists (signUp_email Sample.sign_up)
                  (signUp_otp Sample.sign_up) (store Sample.empty)).
  { intros (otp & Hin & _). by apply elem_of_nil in Hin. }
  split; [exact H|].
  pose proof (proj2 (@signUp_requires_unused_otp Sample.bcrypt Sample.jose
                       Sample.sign_up Sample.env Sample.empty) H) as (Hstatus & Hstore & _).
  split; [exact Hstatus | exact Hstore].
Defined.

Section SignUpSuccess.
Context `{!Bcrypt, !Jose}.


End SignUpSuccess.



(** ** Sign-in *)

Lemma findFirst_app_None {Row : Type} (where_ : Row → bool) (table more : list Row) :
  Drizzle.findFirst where_ table = None →
  Drizzle.findFirst where_ (table ++ more) = Drizzle.findFirst where_ more.
Proof.
  unfold Drizzle.findFirst. induction table as [|r table IH]; simpl; [done|].
  destruct (where_ r); [done | exact IH].
Qed.

Section SignIn.
Context `{!Bcrypt, !Jose}.

(** After a successful sign-up, a row sign-in reads for the address is the
    one just inserted, and its password field is the bcrypt hash. *)
Lemma signUp_stores_hash (request : SignUpBody) (env : Env) (w : World) (user : UserRow) :
  status (UserController.signUp request env w).1 = 200 →
  Spec.user_with_email (signUp_email request)
    (store (UserController.signUp request env w).2) = Some user →
  user_password user = bcrypt_hash (signUp_password request) 10 (env_salt env).
Proof.
  rewrite signUp_run. cbv zeta.
  destruct (Spec.user_with_email _ (store w)) as [existing|] eqn:Hexisting; [done|].
  destruct (Drizzle.findFirst _ _) as [otp|]; [|done].
  destruct (Drizzle.stored_user _ _ _ _ _ _) as [row|] eqn:Hrow; [|done].
  intros _. unfold Spec.user_with_email in *. simpl.
  rewrite (findFirst_app_None _ _ _ Hexisting). simpl.
  case_bool_decide; [|done]. intros [= <-].
  apply stored_user_Some in Hrow as (_ & _ & _ & Hpassword & _).
  rewrite varchar_hash in Hpassword. by injection Hpassword.
Qed.

(** C1. In the sign-in flow, for every request whose email matches an
    existing User row (the row [user] the lookup returns), authentication
    succeeds if and only if the stored password field is equal, character by
    character, to the submitted plaintext password; the handler makes no call
    to the hasher; so when the stored field is the bcrypt hash that sign-up
    wrote for that very plaintext, the login attempt succeeds only if the hash
    equals its own plaintext, and is rejected with "Please enter correct
    password" whenever hash and plaintext differ. *)
Theorem signIn_compares_stored_password_verbatim
    (request : SignInBody) (env : Env) (w : World) (user : UserRow) :
  Spec.user_with_email (signIn_email request) (store w) = Some user →
  let result := UserController.signIn request env w in
  (status result.1 = 200 ↔ user_password user = signIn_password request)
  ∧ (∀ e, e ∈ Spec.new_events w result.2 → ¬ Spec.is_hash_call e)
  ∧ (∀ (signed_up : SignUpBody) (env0 : Env) (w0 : World),
       status (UserController.signUp signed_up env0 w0).1 = 200 →
       w = (UserController.signUp signed_up env0 w0).2 →
       signIn_email request = signUp_email signed_up →
       signIn_password request = signUp_password signed_up →
       let hash := bcrypt_hash (signUp_password signed_up) 10 (env_salt env0) in
       (status result.1 = 200 ↔ hash = signUp_password signed_up)
       ∧ (hash ≠ signUp_password signed_up →
          result.1 = send 422 (BMessage "Please enter correct password"))).
Proof.
  intros Hfind. simpl.
  assert (Hiff : status (UserController.signIn request env w).1 = 200
                 ↔ user_password user = signIn_password request).
  { rewrite signIn_run. simpl. rewrite Hfind.
    case_bool_decide as Hneq; simpl; split; done. }
  split; [exact Hiff|]. split.
  - rewrite signIn_run. simpl. rewrite Hfind.
    intros e He (password & rounds & ->).
    case_bool_decide; simpl in He.
    + rewrite new_events_appended in He.
      apply list_elem_of_singleton in He. discriminate.
    + rewrite <- app_assoc, new_events_appended in He.
      apply elem_of_cons in He as [He|He]; [discriminate|].
      apply list_elem_of_singleton in He. discriminate.
  - intros signed_up env0 w0 Hok -> Hemail Hpassword.
    rewrite Hemail in Hfind.
    pose proof (signUp_stores_hash signed_up env0 w0 user Hok Hfind) as Hhash.
    simpl. rewrite <- Hhash, <- Hpassword. split; [exact Hiff|].
    intros Hdiffer. rewrite signIn_run. simpl.
    rewrite Hemail, Hfind. by rewrite bool_decide_eq_true_2.
Qed.

(** C10. A failed sign-in tells its cause: when the email matches no User row
    the reply is 422 "Invalid email or password"; when it matches a row whose
    password differs from the submitted one the reply is 422 "Please enter
    correct password"; the two messages differ, so among the failure replies
    the first message appears exactly when the address is not registered. *)
Theorem signIn_failure_reveals_registration
    (request : SignInBody) (env : Env) (w : World) :
  let reply := (UserController.signIn request env w).1 in
  let email := signIn_email request in
  (¬ Spec.registered email (store w) →
     reply = send 422 (BMessage "Invalid email or password"))
  ∧ (∀ user, Spec.user_with_email email (store w) = Some user →
       user_password user ≠ signIn_password request →
       reply = send 422 (BMessage "Please enter correct password"))
  ∧ "Invalid email or password" ≠ "Please enter correct password"
  ∧ (status reply = 422 →
       (body reply = BMessage "Invalid email or password"
        ↔ ¬ Spec.registered email (store w))).
Proof.
  simpl. rewrite signIn_run. simpl. split; [|split; [|split; [done|]]].
  - intros Hno%user_with_email_None. by rewrite Hno.
  - intros user Hfind Hneq. rewrite Hfind. by rewrite bool_decide_eq_true_2.
  - destruct (Spec.user_with_email _ _) as [user|] eqn:Hfind; simpl.
    + assert (Hreg : Spec.registered (signIn_email request) (store w)).
      { apply user_with_email_Some in Hfind as [Hin Hemail]. by exists user. }
      case_bool_decide; simpl; [|done].
      intros _. split; [done|]. intros Hno. by destruct Hno.
    + intros _. split; [|done]. intros _. by apply user_with_email_None.
Qed.

End SignIn.

Lemma signIn_compares_stored_password_verbatim_witness :
  let w := (@UserController.signUp Sample.bcrypt Sample.jose
              Sample.sign_up Sample.env Sample.two_codes).2 in
  let request := mkSignIn "a@b.com" "Abc123!@" in
  let hash := @bcrypt_hash Sample.bcrypt "Abc123!@" 10 (env_salt Sample.env) in
  Spec.user_with_email "a@b.com" (store w)
  = Some (mkUser Sample.uuid_1 "Al" "a@b.com" hash (Some "1234567890") (Some (env_now Sample.env)))
  ∧ hash ≠ "Abc123!@"
  ∧ (@UserController.signIn Sample.jose request Sample.env w).1
    = send 422 (BMessage "Please enter correct password").
Proof.
  set (w := (@UserController.signUp Sample.bcrypt Sample.jose
               Sample.sign_up Sample.env Sample.two_codes).2).
  set (request := mkSignIn "a@b.com" "Abc123!@").
  simpl.
  assert (Hfind : Spec.user_with_email (signIn_email request) (store w)
                  = Some (mkUser Sample.uuid_1 "Al" "a@b.com"
                            (@bcrypt_hash Sample.bcrypt "Abc123!@" 10 (env_salt Sample.env))
                            (Some "1234567890") (Some (env_now Sample.env))))
    by reflexivity.
  assert (Hdiffer : @bcrypt_hash Sample.bcrypt "Abc123!@" 10 (env_salt Sample.env)
                    ≠ "Abc123!@") by discriminate.
  split; [exact Hfind|]. split; [exact Hdiffer|].
  pose proof (@signIn_compares_stored_password_verbatim Sample.bcrypt Sample.jose
                request Sample.env w _ Hfind) as (_ & _ & Hafter).
  exact (proj2 (Hafter Sample.sign_up Sample.env Sample.two_codes
                  eq_refl eq_refl eq_refl eq_refl) Hdiffer).
Defined.

Lemma signIn_failure_reveals_registration_witness :
  (@UserController.signIn Sample.jose (mkSignIn "x@y.com" "Abc123!@")
     Sample.env Sample.registered).1
  = send 422 (BMessage "Invalid email or password")
  ∧ (@UserController.signIn Sample.jose (mkSignIn "a@b.com" "Wrong123!@")
       Sample.env Sample.registered).1
    = send 422 (BMessage "Please enter correct password").
Proof.
  split.
  - apply (proj1 (@signIn_failure_reveals_registration Sample.jose
                    (mkSignIn "x@y.com" "Abc123!@") Sample.env Sample.registered)).
    intros (user & Hin & Hemail).
    apply list_elem_of_singleton in Hin. subst user. discriminate.
  - apply (proj1 (proj2 (@signIn_failure_reveals_registration Sample.jose
                           (mkSignIn "a@b.com" "Wrong123!@") Sample.env Sample.registered))
             Sample.al_row); [reflexivity | discriminate].
Defined.

(** ** The bearer-token gate *)

(** Past the guard, [token.split(" ")[1]] is defined: it is the text between
    the first space and the next one. *)
Lemma startsWith_append (prefix rest : string) :
  JS.startsWith (prefix +:+ rest) prefix = true.
Proof.
  unfold JS.startsWith. induction prefix as [|c prefix IH].
  - by destruct rest.
  - change (String c prefix +:+ rest) with (String c (prefix +:+ rest)). simpl.
    by destruct (Ascii.ascii_dec c c).
Qed.

Lemma startsWith_inv (value prefix : string) :
  JS.startsWith value prefix = true → ∃ rest, value = prefix +:+ rest.
Proof.
  unfold JS.startsWith. revert value.
  induction prefix as [|c prefix IH]; intros value.
  - intros _. by exists value.
  - destruct value as [|c' value]; simpl; [done|].
    destruct (Ascii.ascii_dec c c') as [->|]; [|done].
    intros [rest ->]%IH. by exists rest.
Qed.

Lemma split_nonempty (sep : Ascii.ascii) (s : string) :
  ∃ first rest, JS.split sep s = first :: rest.
Proof.
  induction s as [|c s (first & rest & IH)]; simpl; [eauto|].
  destruct (Ascii.eqb c sep); [eauto|]. rewrite IH. eauto.
Qed.

Lemma split_head (rest : string) :
  JS.split " " rest !! 0%nat = Some (Spec.up_to_space rest).
Proof.
  induction rest as [|c rest IH]; simpl; [done|].
  destruct (Ascii.eqb c " "); [done|].
  destruct (split_nonempty " " rest) as (first & more & Hsplit).
  rewrite Hsplit in *. simpl in *. by injection IH as ->.
Qed.

(** [token.split(" ")[1]] is the text between the prefix and the next
    space. *)
Lemma split_Bearer (rest : string) :
  JS.split " " ("Bearer " +:+ rest) !! 1%nat = Some (Spec.up_to_space rest).
Proof.
  unfold String.append. simpl.
  destruct (split_nonempty " " rest) as (token & more & Hsplit).
  pose proof (split_head rest) as Hhead.
  rewrite Hsplit in *. exact Hhead.
Qed.

(** So the index the gate reads is never out of range. *)
Lemma split_token_defined (value : string) :
  JS.startsWith value "Bearer " = true →
  ∃ token, JS.split " " value !! 1%nat = Some token.
Proof.
  intros [rest ->]%startsWith_inv. rewrite split_Bearer. eauto.
Qed.

Section Gate.
Context `{!Jose}.

Lemma handle_guard (request : FastifyRequest) (w : World) :
  Spec.header_absent (req_authorization request)
  ∨ Spec.lacks_bearer_prefix (req_authorization request) →
  AuthMiddleware.handle request w
  = ((Some (send 401 (BError "Unauthorized")), request), w).
Proof.
  unfold AuthMiddleware.handle, Spec.header_absent, Spec.lacks_bearer_prefix.
  intros [Habsent|(value & Hvalue & Hprefix)].
  - rewrite Habsent. reflexivity.
  - rewrite Hvalue. simpl. rewrite Hprefix. simpl. by rewrite orb_true_r.
Qed.

(** C3, amended. For every request to a protected route whose Authorization
    header is absent or does not start with the prefix "Bearer ", the gate
    replies 401 "Unauthorized" and the token-verification function is not
    invoked; a header that carries an empty token after the prefix passes the
    guard: verification is invoked once, on the empty string, and the gate
    replies 401 when that verification fails. *)
Theorem handle_rejects_malformed_header (request : FastifyRequest) (w : World) :
  let result := AuthMiddleware.handle request w in
  let authorization := req_authorization request in
  (Spec.header_absent authorization ∨ Spec.lacks_bearer_prefix authorization →
     result.1 = (Some (send 401 (BError "Unauthorized")), request)
     ∧ result.2 = w
     ∧ ∀ e, e ∈ Spec.new_events w result.2 → ¬ Spec.is_verify_call e)
  ∧ (Spec.empty_bearer_token authorization →
     Spec.new_events w result.2 = [JwtVerify ""]
     ∧ store result.2 = store w
     ∧ ∀ error, jwtVerify "" = inr error →
         ∃ reply, result.1 = (Some reply, request) ∧ status reply = 401).
Proof.
  simpl. split.
  - intros Hmalformed. rewrite (handle_guard _ _ Hmalformed). simpl.
    split; [done|]. split; [done|].
    unfold Spec.new_events. rewrite drop_all. intros e He. by apply elem_of_nil in He.
  - unfold Spec.empty_bearer_token. intros (rest & Hheader & Hempty).
    unfold AuthMiddleware.handle, Utils.verifyJWT, emit, mbind, M_bind, mret, M_ret.
    rewrite Hheader. cbn [default from_option id JS.not_string].
    rewrite split_Bearer, Hempty.
    rewrite startsWith_append. simpl.
    split; [|split].
    + destruct (jwtVerify ""); simpl; apply new_events_appended.
    + by destruct (jwtVerify "").
    + intros error ->. simpl. eauto.
Qed.

End Gate.

(** C3 as stated fails on the headers ["Bearer "] and ["Bearer  abc"]: each
    starts with the prefix and carries an empty token after it, and on each
    the gate does invoke the verification function, on the empty string,
    before replying 401. *)
Lemma handle_empty_token_counterexample :
  let trailing := Sample.request (Some "Bearer ") in
  let doubled := Sample.request (Some "Bearer  abc") in
  Spec.empty_bearer_token (req_authorization trailing)
  ∧ Spec.empty_bearer_token (req_authorization doubled)
  ∧ Spec.new_events Sample.empty
      (@AuthMiddleware.handle Sample.jose trailing Sample.empty).2 = [JwtVerify ""]
  ∧ Spec.new_events Sample.empty
      (@AuthMiddleware.handle Sample.jose doubled Sample.empty).2 = [JwtVerify ""]
  ∧ ¬ (∀ e, e ∈ Spec.new_events Sample.empty
                  (@AuthMiddleware.handle Sample.jose trailing Sample.empty).2 →
            ¬ Spec.is_verify_call e).
Proof.
  simpl. split; [by exists ""|]. split; [by exists " abc"|].
  split; [reflexivity|]. split; [reflexivity|].
  intros Hnever. apply (Hnever (JwtVerify "")).
  - apply list_elem_of_here.
  - by exists "".
Qed.

Lemma handle_rejects_malformed_header_witness :
  Spec.lacks_bearer_prefix (Some "Basic dXNlcjpwYXNz")
  ∧ (@AuthMiddleware.handle Sample.jose
       (Sample.request (Some "Basic dXNlcjpwYXNz")) Sample.empty)
    = ((Some (send 401 (BError "Unauthorized")),
        Sample.request (Some "Basic dXNlcjpwYXNz")), Sample.empty)
  ∧ Spec.empty_bearer_token (Some "Bearer  abc")
  ∧ ∃ reply,
      (@AuthMiddleware.handle Sample.jose
         (Sample.request (Some "Bearer  abc")) Sample.empty).1
      = (Some reply, Sample.request (Some "Bearer  abc"))
      ∧ status reply = 401.
Proof.
  assert (Hprefix : Spec.lacks_bearer_prefix
                      (req_authorization (Sample.request (Some "Basic dXNlcjpwYXNz")))).
  { eexists. split; reflexivity. }
  assert (Hempty : Spec.empty_bearer_token
                     (req_authorization (Sample.request (Some "Bearer  abc")))).
  { by exists " abc". }
  split; [exact Hprefix|]. split; [|split; [exact Hempty|]].
  - pose proof (proj1 (@handle_rejects_malformed_header Sample.jose
                         (Sample.request (Some "Basic dXNlcjpwYXNz")) Sample.empty)
                  (or_intror Hprefix)) as (Hreply & Hworld & _).
    apply injective_projections; [exact Hreply | exact Hworld].
  - pose proof (proj2 (@handle_rejects_malformed_header Sample.jose
                         (Sample.request (Some "Bearer  abc")) Sample.empty)
                  Hempty) as (_ & _ & Hreject).
    exact (Hreject _ eq_refl).
Defined.

(** ** Request validation *)

Lemma invalid_type_nonempty (expected : string) (input : Zod.JsValue) :
  Zod.invalid_type expected input ≠ "".
Proof. unfold Zod.invalid_type, String.append. simpl. discriminate. Qed.

Lemma run_check_message (c : Zod.Check) (input : string) (issue : Zod.ZodIssue) :
  issue ∈ Zod.run_check c input →
  Zod.path issue = [] ∧ Zod.message issue = Spec.check_message c.
Proof.
  destruct c as [minimum msg|pattern msg]; simpl.
  - destruct (minimum <=? String.length input)%nat.
    + by intros ?%elem_of_nil.
    + by intros ->%list_elem_of_singleton.
  - destruct (Zod.test pattern input).
    + by intros ?%elem_of_nil.
    + by intros ->%list_elem_of_singleton.
Qed.

Lemma parse_string_message (email_test : string → bool) (rule : Zod.StringSchema)
    (input : Zod.JsValue) (issue : Zod.ZodIssue) :
  Spec.rule_messages_nonempty rule = true →
  issue ∈ Zod.parse_string email_test rule input →
  Zod.path issue = [] ∧ Zod.message issue ≠ "".
Proof.
  intros Hrule Hin.
  assert (Htype : ∀ text, text ≠ "" →
            issue ∈ [Zod.mkIssue [] text] → Zod.path issue = [] ∧ Zod.message issue ≠ "").
  { by intros text Htext ->%list_elem_of_singleton. }
  destruct rule as [checks|error]; simpl in Hrule.
  - destruct input; simpl in Hin;
      try (eapply Htype; [apply invalid_type_nonempty | exact Hin]).
    apply list_elem_of_In, in_flat_map in Hin as (c & Hc & Hissue).
    apply list_elem_of_In, run_check_message in Hissue as [Hpath Hmsg].
    split; [done|]. rewrite Hmsg.
    rewrite forallb_forall in Hrule. specialize (Hrule c Hc).
    apply negb_true_iff, String.eqb_neq in Hrule. done.
  - apply negb_true_iff, bool_decide_eq_false in Hrule.
    assert (Hdefault : ∀ fallback, fallback ≠ "" → default fallback error ≠ "").
    { intros fallback Hfallback. destruct error as [text|]; simpl; [|done].
      intros ->. done. }
    destruct input; simpl in Hin;
      try (eapply Htype; [apply Hdefault, invalid_type_nonempty | exact Hin]).
    destruct (email_test s).
    + by apply elem_of_nil in Hin.
    + apply (Htype (default "Invalid email address" error)); [|exact Hin].
      by apply Hdefault.
Qed.

Lemma parse_props_recordable (email_test : string → bool) (shape : Zod.ObjectSchema)
    (props : gmap string Zod.JsValue) (issue : Zod.ZodIssue) :
  Spec.schema_recordable shape = true →
  issue ∈ Zod.parse_props email_test shape props →
  Spec.recordable issue.
Proof.
  intros Hshape Hin. unfold Zod.parse_props in Hin.
  apply list_elem_of_In, in_flat_map in Hin as ([k rule] & Hentry & Hissue).
  unfold Spec.schema_recordable in Hshape. rewrite forallb_forall in Hshape.
  apply Hshape in Hentry. simpl in Hentry.
  apply andb_prop in Hentry as [Hkey Hrule].
  apply negb_true_iff, bool_decide_eq_false in Hkey.
  apply list_elem_of_In, list_elem_of_fmap in Hissue as (inner & -> & Hinner).
  apply (parse_string_message _ _ _ _ Hrule) in Hinner as [Hpath Hmsg].
  split; [done|].
  unfold Spec.field_path, Zod.at_key. simpl. by rewrite Hpath.
Qed.

Lemma safeParse_Failure_recordable (email_test : string → bool)
    (shape : Zod.ObjectSchema) (input : Zod.JsValue) (error : Zod.ZodError) :
  Spec.schema_recordable shape = true →
  Zod.safeParse email_test shape input = Zod.Failure error →
  Forall Spec.recordable (Zod.issues error).
Proof.
  intros Hshape Hfail.
  assert (Hroot : ∀ v, Forall Spec.recordable
                         [Zod.mkIssue [] (Zod.invalid_type "object" v)]).
  { intros v. apply Forall_singleton. split; [apply invalid_type_nonempty|].
    unfold Spec.field_path. simpl.
    apply (proj1 (bool_decide_eq_false _)). reflexivity. }
  destruct input; simpl in Hfail; try (injection Hfail as <-; apply Hroot).
  destruct (Zod.parse_props email_test shape props) as [|i rest] eqn:Hparse; [done|].
  injection Hfail as <-. simpl. rewrite <- Hparse.
  apply Forall_forall. intros issue Hin. by eapply parse_props_recordable.
Qed.

(** The loop of [formatZodErrors], started from any map whose values are
    non-empty: a field already present keeps its message, an absent one
    receives the message of the first issue that concerns it. *)
Lemma formatZodErrors_loop (issues : list Zod.ZodIssue) (formatted : gmap string string)
    (field : string) :
  Forall Spec.recordable issues →
  (∀ k v, formatted !! k = Some v → v ≠ "") →
  foldl Utils.record_issue formatted issues !! field
  = match formatted !! field with
    | Some v => Some v
    | None => Spec.first_message field (Zod.mkZodError issues)
    end.
Proof.
  revert formatted.
  induction issues as [|issue issues IH]; intros formatted Hissues Hvalues.
  - simpl. unfold Spec.first_message. simpl. by destruct (formatted !! field).
  - apply Forall_cons in Hissues as [[Hmsg Hpath] Hissues].
    cbn [foldl]. unfold Utils.record_issue at 2. cbv zeta.
    fold (Spec.field_path issue). unfold JS.truthy_at.
    destruct (formatted !! Spec.field_path issue) as [present|] eqn:Hpresent.
    + assert (Hne : String.eqb present "" = false).
      { apply String.eqb_neq. by eapply Hvalues. }
      rewrite Hne. simpl. rewrite (IH formatted Hissues Hvalues).
      destruct (formatted !! field) as [v|] eqn:Hfield; [done|].
      unfold Spec.first_message. simpl.
      rewrite bool_decide_eq_false_2; [done|].
      intros Heq. rewrite Heq in Hpresent. congruence.
    + rewrite bool_decide_eq_false_2 by done. simpl.
      rewrite IH; [|done|].
      * destruct (decide (Spec.field_path issue = field)) as [<-|Hother].
        -- rewrite lookup_insert_eq, Hpresent.
           unfold Spec.first_message. simpl. by rewrite bool_decide_eq_true_2.
        -- rewrite lookup_insert_ne by done.
           destruct (formatted !! field); [done|].
           unfold Spec.first_message. simpl. by rewrite bool_decide_eq_false_2.
      * intros k v. destruct (decide (Spec.field_path issue = k)) as [<-|Hother].
        -- rewrite lookup_insert_eq. by intros [= <-].
        -- rewrite lookup_insert_ne by done. apply Hvalues.
Qed.

Lemma formatZodErrors_first_message (error : Zod.ZodError) (field : string) :
  Forall Spec.recordable (Zod.issues error) →
  Utils.formatZodErrors error !! field = Spec.first_message field error.
Proof.
  intros Hissues. unfold Utils.formatZodErrors.
  rewrite formatZodErrors_loop; [|done|].
  - rewrite lookup_empty. by destruct error.
  - intros k v. by rewrite lookup_empty.
Qed.

Section Validation.
Context `{!ZodFormats}.

Lemma body_hook_short_circuits (schema : Zod.ObjectSchema) :
  Spec.schema_recordable schema = true →
  Spec.short_circuits
    (λ req, mret (Utils.validateWithZod req (UserValidationSchema.body_only schema)))
    schema.
Proof.
  intros Hschema handler req w error Hfail. split.
  - unfold with_hook, Utils.validateWithZod, UserValidationSchema.body_only,
      mbind, M_bind, mret, M_ret. simpl.
    rewrite Hfail. reflexivity.
  - intros field. apply formatZodErrors_first_message.
    by eapply safeParse_Failure_recordable.
Qed.

(** The sign-up schema declares no [otp] key and a parsed object keeps the
    declared keys only: the body the sign-up hook hands on carries no [otp]
    property, whatever the request held. *)
Lemma signUpUserSchema_strips_otp (req req' : FastifyRequest) (w w' : World) :
  UserValidationSchema.signUpUserSchema req w = ((None, req'), w') →
  ∃ props, req_body req' = Zod.JObject props ∧ props !! "otp" = None.
Proof.
  unfold UserValidationSchema.signUpUserSchema, Utils.validateWithZod,
    UserValidationSchema.body_only, mret, M_ret. simpl.
  destruct (Zod.safeParse _ _ _) as [data|error] eqn:Hparse; [|done].
  intros [= <- _]. simpl.
  unfold Zod.safeParse in Hparse.
  destruct (req_body req) as [| | | | | |props]; try done.
  destruct (Zod.parse_props email_pattern_test UserValidationSchema.signUpUser props);
    [|done].
  injection Hparse as <-. eexists. split; [reflexivity|].
  unfold Zod.strip. apply map_lookup_filter_None. right.
  intros v _ Hkey. simpl in Hkey.
  repeat (apply elem_of_cons in Hkey as [Hkey|Hkey]; [discriminate|]).
  by apply elem_of_nil in Hkey.
Qed.

(** C7. Under each of the three validation hooks, every request body that
    fails the schema is answered with status 422 before the handler runs or
    the store is touched: whatever handler is registered behind the hook, the
    route's result is the 422 reply and the world (store and call trace) it
    started from.  The details of that reply map each field path to the
    message of the first issue raised for it, in issue order, and hold no
    other entry: one message per field, later issues of the same field
    dropped. *)
Theorem validation_failure_short_circuits :
  Spec.short_circuits UserValidationSchema.signInUserSchema UserValidationSchema.signInUser
  ∧ Spec.short_circuits UserValidationSchema.signUpUserSchema UserValidationSchema.signUpUser
  ∧ Spec.short_circuits UserValidationSchema.sendOtpSchema
      UserValidationSchema.verifyEmailSchema.
Proof.
  split; [|split]; by apply body_hook_short_circuits.
Qed.

End Validation.

Lemma validation_failure_short_circuits_witness :
  Zod.safeParse (@email_pattern_test Sample.formats) UserValidationSchema.signUpUser
                (req_body Sample.weak_request) = Zod.Failure Sample.weak_issues
  ∧ with_hook (@UserValidationSchema.signUpUserSchema Sample.formats)
              (λ _, @UserController.signUp Sample.bcrypt Sample.jose
                      Sample.sign_up Sample.env)
              Sample.weak_request Sample.two_codes
    = (send 422 (BInvalid "Invalid body" (Utils.formatZodErrors Sample.weak_issues)),
       Sample.two_codes)
  ∧ Utils.formatZodErrors Sample.weak_issues !! "password"
    = Some "Password must contain at least one uppercase letter"
  ∧ Utils.formatZodErrors Sample.weak_issues !! "email" = None.
Proof.
  assert (Hfail : Zod.safeParse (@email_pattern_test Sample.formats)
                    UserValidationSchema.signUpUser (req_body Sample.weak_request)
                  = Zod.Failure Sample.weak_issues) by (vm_compute; reflexivity).
  split; [exact Hfail|].
  pose proof (proj1 (proj2 (@validation_failure_short_circuits Sample.formats))
                (λ _, @UserController.signUp Sample.bcrypt Sample.jose
                        Sample.sign_up Sample.env)
                Sample.weak_request Sample.two_codes Sample.weak_issues Hfail)
    as [Hreply Hdetails].
  split; [exact Hreply|]. split.
  - rewrite Hdetails. reflexivity.
  - rewrite Hdetails. reflexivity.
Defined.

(** * Further properties of the code *)

(** ** [formatZodErrors] on any error *)

(** How the entry of one field evolves along the messages raised for it: an
    absent or empty entry takes the next message, a non-empty one stays. *)
Lemma settle_messages (messages : list string) (current : option string) :
  foldl (λ (entry : option string) m,
           match entry with
           | Some v => if String.eqb v "" then Some m else Some v
           | None => Some m
           end) current messages
  = match current with
    | Some v =>
        if String.eqb v "" then Some (default "" (Spec.first_nonempty messages))
        else Some v
    | None =>
        match messages with
        | [] => None
        | _ => Some (default "" (Spec.first_nonempty messages))
        end
    end.
Proof.
  revert current. induction messages as [|m messages IH]; intros current.
  - simpl. destruct current as [v|]; [|done]. destruct (String.eqb v "") eqn:Hv; [|done].
    apply String.eqb_eq in Hv. by subst.
  - cbn [foldl]. rewrite IH. unfold Spec.first_nonempty. cbn [List.find].
    destruct current as [v|].
    + destruct (String.eqb v "") eqn:Hv; [|by rewrite Hv].
      destruct (String.eqb m "") eqn:Hm; simpl; done.
    + destruct (String.eqb m "") eqn:Hm; simpl; done.
Qed.

Lemma record_issue_other (formatted : gmap string string) (issue : Zod.ZodIssue)
    (field : string) :
  Spec.field_path issue ≠ field →
  Utils.record_issue formatted issue !! field = formatted !! field.
Proof.
  intros Hother. unfold Utils.record_issue. cbv zeta. fold (Spec.field_path issue).
  destruct (negb _); [|done]. by rewrite lookup_insert_ne.
Qed.

Lemma formatZodErrors_inherited (issues : list Zod.ZodIssue)
    (formatted : gmap string string) (field : string) :
  field ∈ JS.Object_prototype_keys →
  formatted !! field = None →
  foldl Utils.record_issue formatted issues !! field = None.
Proof.
  intros Hproto. revert formatted.
  induction issues as [|issue issues IH]; intros formatted Hnone; [done|].
  cbn [foldl]. apply IH.
  destruct (decide (Spec.field_path issue = field)) as [Heq|Hother].
  - unfold Utils.record_issue. cbv zeta. fold (Spec.field_path issue). rewrite Heq.
    unfold JS.truthy_at. rewrite Hnone. by rewrite bool_decide_eq_true_2.
  - by rewrite record_issue_other.
Qed.

Lemma formatZodErrors_entry (issues : list Zod.ZodIssue)
    (formatted : gmap string string) (field : string) :
  field ∉ JS.Object_prototype_keys →
  foldl Utils.record_issue formatted issues !! field
  = foldl (λ (entry : option string) m,
             match entry with
             | Some v => if String.eqb v "" then Some m else Some v
             | None => Some m
             end)
          (formatted !! field)
          (Zod.message <$> Spec.issues_at field (Zod.mkZodError issues)).
Proof.
  intros Hproto. revert formatted.
  induction issues as [|issue issues IH]; intros formatted; [done|].
  cbn [foldl]. rewrite IH. unfold Spec.issues_at. cbn [Zod.issues List.filter].
  destruct (decide (Spec.field_path issue = field)) as [Heq|Hother].
  - rewrite bool_decide_eq_true_2 by done. cbn [fmap list_fmap foldl]. f_equal.
    unfold Utils.record_issue. cbv zeta. fold (Spec.field_path issue). rewrite Heq.
    unfold JS.truthy_at.
    destruct (formatted !! field) as [v|] eqn:Hentry.
    + destruct (String.eqb v "") eqn:Hv; simpl.
      * by rewrite lookup_insert_eq.
      * done.
    + rewrite bool_decide_eq_false_2 by done. simpl. by rewrite lookup_insert_eq.
  - rewrite bool_decide_eq_false_2 by done. by rewrite record_issue_other.
Qed.

(** X1. For any error at all, [formatZodErrors] holds for a field: no entry
    when the field's path is a name every object inherits ([constructor],
    [toString], ...), since the test [!formatted[path]] then never holds; no
    entry when no issue concerns the field; and otherwise the first
    non-empty message raised for it, because an empty message reads as
    absent and is overwritten by the next one. *)
Theorem formatZodErrors_records (error : Zod.ZodError) (field : string) :
  Utils.formatZodErrors error !! field = Spec.recorded_message field error.
Proof.
  unfold Utils.formatZodErrors, Spec.recorded_message. case_bool_decide as Hproto.
  - by apply formatZodErrors_inherited.
  - rewrite formatZodErrors_entry by done. rewrite settle_messages, lookup_empty.
    destruct error as [issues]. simpl.
    by destruct (Spec.issues_at field _).
Qed.

(** ** [validateWithZod] *)

Section ValidateWithZod.
Context `{!ZodFormats}.

(** X2. [validateWithZod] reports the first failing part only: a body that
    fails its schema is answered "Invalid body" with the request untouched,
    whatever the query and params schemas would say; a failing query is
    reported only once the body has passed, and the request then already
    carries the parsed body.  Every reply it sends is a 422 without cookie
    under one of the three labels, and in every outcome the Authorization
    header and the attached identity are left as they were. *)
Theorem validateWithZod_first_failing_part (req : FastifyRequest) (schemas : Utils.Schemas) :
  let result := Utils.validateWithZod req schemas in
  let parse := Zod.safeParse email_pattern_test in
  (∀ schema error,
     Utils.schemas_body schemas = Some schema →
     parse schema (req_body req) = Zod.Failure error →
     result = (Some (send 422 (BInvalid "Invalid body" (Utils.formatZodErrors error))), req))
  ∧ (∀ schema data query error,
       Utils.schemas_body schemas = Some schema →
       parse schema (req_body req) = Zod.Success data →
       Utils.schemas_query schemas = Some query →
       parse query (req_query req) = Zod.Failure error →
       result = (Some (send 422 (BInvalid "Invalid query" (Utils.formatZodErrors error))),
                 Spec.with_body req data))
  ∧ (∀ reply, result.1 = Some reply →
       status reply = 422 ∧ cookies reply = []
       ∧ ∃ what error,
           body reply = BInvalid what (Utils.formatZodErrors error)
           ∧ what ∈ ["Invalid body"; "Invalid query"; "Invalid params"])
  ∧ req_authorization result.2 = req_authorization req
  ∧ req_user result.2 = req_user req.
Proof.
  simpl. unfold Utils.validateWithZod, Utils.invalid. cbv zeta.
  split; [|split; [|split]].
  - intros schema error -> ->. reflexivity.
  - intros schema data query error -> -> Hquery. simpl. rewrite Hquery.
    intros ->. reflexivity.
  - intros reply.
    destruct (Utils.schemas_body schemas) as [sb|];
      [destruct (Zod.safeParse _ sb _) as [db|eb]|];
      destruct (Utils.schemas_query schemas) as [sq|];
      try destruct (Zod.safeParse _ sq _) as [dq|eq_];
      destruct (Utils.schemas_params schemas) as [sp|];
      try destruct (Zod.safeParse _ sp _) as [dp|ep];
      simpl; intros [= <-] || discriminate || idtac;
      (split; [done|split; [done|]]); do 2 eexists; (split; [reflexivity|]);
      set_solver.
  - destruct (Utils.schemas_body schemas) as [sb|];
      [destruct (Zod.safeParse _ sb _) as [db|eb]|];
      destruct (Utils.schemas_query schemas) as [sq|];
      try destruct (Zod.safeParse _ sq _) as [dq|eq_];
      destruct (Utils.schemas_params schemas) as [sp|];
      try destruct (Zod.safeParse _ sp _) as [dp|ep];
      simpl; done.
Qed.

End ValidateWithZod.

(** ** What a passing validation hook guarantees *)

Lemma test_contains (cls : Zod.CharClass) (s : string) :
  Zod.test cls s = true
  ↔ ∃ c, In c (String.list_ascii_of_string s) ∧ Zod.class_mem cls c = true.
Proof. unfold Zod.test. apply existsb_exists. Qed.

Lemma class_mem_range (lo hi c : Ascii.ascii) :
  Zod.class_mem (Zod.Range lo hi) c = true ↔ Spec.in_range lo hi c.
Proof.
  unfold Spec.in_range. simpl. rewrite andb_true_iff, !N.leb_le. tauto.
Qed.

Lemma class_mem_special (c : Ascii.ascii) :
  Zod.class_mem UserValidationSchema.special c = true
  ↔ ¬ Spec.is_upper c ∧ ¬ Spec.is_lower c ∧ ¬ Spec.is_digit c.
Proof.
  unfold Spec.is_upper, Spec.is_lower, Spec.is_digit. rewrite <- !class_mem_range.
  change (Zod.class_mem UserValidationSchema.special c)
    with (negb (Zod.class_mem (Zod.Range "A" "Z") c
                || (Zod.class_mem (Zod.Range "a" "z") c
                    || Zod.class_mem (Zod.Range "0" "9") c))).
  rewrite negb_true_iff, !orb_false_iff, <- !not_true_iff_false. tauto.
Qed.

(** The five checks of the password rule pass together exactly on the strong
    passwords. *)
Lemma password_checks_pass (password : string) :
  flat_map (λ c, Zod.run_check c password)
    [ Zod.min 8 "Password must be at least 8 characters";
      Zod.regex UserValidationSchema.upper
        "Password must contain at least one uppercase letter";
      Zod.regex UserValidationSchema.lower
        "Password must contain at least one lowercase letter";
      Zod.regex UserValidationSchema.digit "Password must contain at least one number";
      Zod.regex UserValidationSchema.special
        "Password must contain at least one special character" ] = []
  ↔ Spec.strong_password password.
Proof.
  unfold Spec.strong_password, Spec.contains. cbn [flat_map Zod.run_check].
  setoid_rewrite <- class_mem_special.
  unfold Spec.is_upper, Spec.is_lower, Spec.is_digit.
  setoid_rewrite <- class_mem_range.
  rewrite <- !test_contains.
  fold UserValidationSchema.upper UserValidationSchema.lower UserValidationSchema.digit.
  destruct (Nat.leb_spec 8 (String.length password)) as [Hlen|Hlen];
    destruct (Zod.test UserValidationSchema.upper password);
    destruct (Zod.test UserValidationSchema.lower password);
    destruct (Zod.test UserValidationSchema.digit password);
    destruct (Zod.test UserValidationSchema.special password);
    cbn [app]; split; try done; try (intros (? & ? & ? & ? & ?); done || lia).
Qed.

Lemma min_check_passes (minimum : nat) (message input : string) :
  flat_map (λ c, Zod.run_check c input) [Zod.min minimum message] = []
  ↔ (minimum ≤ String.length input)%nat.
Proof.
  cbn [flat_map Zod.run_check].
  destruct (Nat.leb_spec minimum (String.length input)) as [Hlen|Hlen]; cbn [app].
  - done.
  - split; [done|lia].
Qed.

(** A string rule raises no issue exactly on a string that passes its
    checks; an e-mail rule exactly on a string the pattern matches.  A
    missing property reads as [undefined] and fails both. *)
Lemma parse_string_checks_pass (email_test : string → bool) (checks : list Zod.Check)
    (value : option Zod.JsValue) :
  Zod.parse_string email_test (Zod.string_ checks) (default Zod.JUndefined value) = []
  ↔ ∃ s, value = Some (Zod.JString s) ∧ flat_map (λ c, Zod.run_check c s) checks = [].
Proof.
  destruct value as [[| | | |s| |]|]; simpl; split; try done;
    try (by intros (s' & [=] & _)).
  - intros Hpass. by exists s.
  - by intros (s' & [= <-] & Hpass).
Qed.

Lemma parse_string_email_passes (email_test : string → bool) (error : option string)
    (value : option Zod.JsValue) :
  Zod.parse_string email_test (Zod.email error) (default Zod.JUndefined value) = []
  ↔ ∃ s, value = Some (Zod.JString s) ∧ email_test s = true.
Proof.
  destruct value as [[| | | |s| |]|]; simpl; split; try done;
    try (by intros (s' & [=] & _)).
  - destruct (email_test s) eqn:Htest; [|done]. intros _. by exists s.
  - intros (s' & [= <-] & ->). done.
Qed.

Lemma at_key_nil (k : string) (inner : list Zod.ZodIssue) :
  Zod.at_key k <$> inner = [] ↔ inner = [].
Proof. split; [apply fmap_nil_inv | by intros ->]. Qed.

Lemma strip_lookup (shape : Zod.ObjectSchema) (props : gmap string Zod.JsValue)
    (k : string) :
  Zod.strip shape props !! k = if bool_decide (k ∈ shape.*1) then props !! k else None.
Proof.
  unfold Zod.strip. case_bool_decide as Hk.
  - destruct (props !! k) as [v|] eqn:Hv.
    + by apply map_lookup_filter_Some.
    + apply map_lookup_filter_None. by left.
  - apply map_lookup_filter_None. right. intros v _. done.
Qed.

Section Hooks.
Context `{!ZodFormats}.

(** A body-only hook passes exactly when the body is an object on which the
    schema raises no issue; the body handed on is that object cut down to the
    declared keys. *)
Lemma body_hook_passes (schema : Zod.ObjectSchema) (req req' : FastifyRequest) :
  Utils.validateWithZod req (UserValidationSchema.body_only schema) = (None, req')
  ↔ ∃ props, req_body req = Zod.JObject props
      ∧ Zod.parse_props email_pattern_test schema props = []
      ∧ req' = Spec.with_body req (Zod.JObject (Zod.strip schema props)).
Proof.
  unfold Utils.validateWithZod, UserValidationSchema.body_only, Zod.safeParse. simpl.
  destruct (req_body req) as [| | | | | |props] eqn:Hbody; simpl;
    try (split; [done | by intros (props' & [=] & _)]).
  destruct (Zod.parse_props email_pattern_test schema props) as [|i rest] eqn:Hparse; simpl.
  - split.
    + intros [= <-]. by exists props.
    + by intros (props' & [= <-] & _ & ->).
  - split; [done|]. intros (props' & [= <-] & Hnil & _). congruence.
Qed.

End Hooks.

Section HookOutcomes.
Context `{!ZodFormats}.

Lemma signUpUser_no_issue (props : gmap string Zod.JsValue) :
  Zod.parse_props email_pattern_test UserValidationSchema.signUpUser props = []
  ↔ ∃ name email phone password,
      props !! "name" = Some (Zod.JString name)
      ∧ props !! "email" = Some (Zod.JString email)
      ∧ props !! "phone" = Some (Zod.JString phone)
      ∧ props !! "password" = Some (Zod.JString password)
      ∧ (2 ≤ String.length name)%nat
      ∧ email_pattern_test email = true
      ∧ (10 ≤ String.length phone)%nat
      ∧ Spec.strong_password password.
Proof.
  unfold Zod.parse_props, UserValidationSchema.signUpUser. cbn [flat_map].
  rewrite !app_nil, !at_key_nil, !parse_string_checks_pass, parse_string_email_passes.
  setoid_rewrite min_check_passes. setoid_rewrite password_checks_pass.
  split.
  - intros ((name & ? & ?) & (email & ? & ?) & (phone & ? & ?) & (password & ? & ?) & _).
    exists name, email, phone, password. done.
  - intros (name & email & phone & password & ? & ? & ? & ? & ? & ? & ? & ?).
    repeat split; eauto.
Qed.

Lemma signInUser_no_issue (props : gmap string Zod.JsValue) :
  Zod.parse_props email_pattern_test UserValidationSchema.signInUser props = []
  ↔ ∃ email password,
      props !! "email" = Some (Zod.JString email)
      ∧ props !! "password" = Some (Zod.JString password)
      ∧ email_pattern_test email = true
      ∧ Spec.strong_password password.
Proof.
  unfold Zod.parse_props, UserValidationSchema.signInUser. cbn [flat_map].
  rewrite !app_nil, !at_key_nil, parse_string_checks_pass, parse_string_email_passes.
  setoid_rewrite password_checks_pass.
  split.
  - intros ((email & ? & ?) & (password & ? & ?) & _). exists email, password. done.
  - intros (email & password & ? & ? & ? & ?). repeat split; eauto.
Qed.

Lemma strip_signUpUser (props : gmap string Zod.JsValue) (name email phone password : Zod.JsValue) :
  props !! "name" = Some name → props !! "email" = Some email →
  props !! "phone" = Some phone → props !! "password" = Some password →
  Zod.strip UserValidationSchema.signUpUser props
  = list_to_map [ ("name", name); ("email", email); ("phone", phone);
                  ("password", password) ].
Proof.
  intros Hname Hemail Hphone Hpassword. apply map_eq. intros k.
  rewrite strip_lookup. cbn [list_to_map foldr fst snd].
  change (UserValidationSchema.signUpUser.*1) with ["name"; "email"; "phone"; "password"].
  repeat (rewrite lookup_insert; destruct (decide _) as [<-|?];
          [case_bool_decide as Hin; [done | exfalso; apply Hin; set_solver]|]).
  rewrite lookup_empty. case_bool_decide as Hin; [|done].
  repeat (apply elem_of_cons in Hin as [->|Hin]; [done|]). by apply elem_of_nil in Hin.
Qed.

Lemma strip_signInUser (props : gmap string Zod.JsValue) (email password : Zod.JsValue) :
  props !! "email" = Some email → props !! "password" = Some password →
  Zod.strip UserValidationSchema.signInUser props
  = list_to_map [ ("email", email); ("password", password) ].
Proof.
  intros Hemail Hpassword. apply map_eq. intros k.
  rewrite strip_lookup. cbn [list_to_map foldr fst snd].
  change (UserValidationSchema.signInUser.*1) with ["email"; "password"].
  repeat (rewrite lookup_insert; destruct (decide _) as [<-|?];
          [case_bool_decide as Hin; [done | exfalso; apply Hin; set_solver]|]).
  rewrite lookup_empty. case_bool_decide as Hin; [|done].
  repeat (apply elem_of_cons in Hin as [->|Hin]; [done|]). by apply elem_of_nil in Hin.
Qed.

(** X3. The sign-up hook lets a request through exactly when its body is an
    object whose [name], [email], [phone] and [password] are strings, the
    name of at least 2 characters, the email matched by the e-mail pattern,
    the phone of at least 10 characters and the password strong; the body it
    hands to the handler then holds these four properties and nothing else:
    every other property of the request, [otp] included, is dropped.  The
    hook itself touches neither store nor trace. *)
Theorem signUpUserSchema_passes_iff (req req' : FastifyRequest) (w : World) :
  (UserValidationSchema.signUpUserSchema req w).2 = w
  ∧ ((UserValidationSchema.signUpUserSchema req w).1 = (None, req')
     ↔ ∃ props name email phone password,
         req_body req = Zod.JObject props
         ∧ props !! "name" = Some (Zod.JString name)
         ∧ props !! "email" = Some (Zod.JString email)
         ∧ props !! "phone" = Some (Zod.JString phone)
         ∧ props !! "password" = Some (Zod.JString password)
         ∧ (2 ≤ String.length name)%nat
         ∧ email_pattern_test email = true
         ∧ (10 ≤ String.length phone)%nat
         ∧ Spec.strong_password password
         ∧ req' = Spec.with_body req
                    (Zod.JObject (list_to_map
                       [ ("name", Zod.JString name); ("email", Zod.JString email);
                         ("phone", Zod.JString phone);
                         ("password", Zod.JString password) ]))).
Proof.
  split; [reflexivity|].
  change ((UserValidationSchema.signUpUserSchema req w).1)
    with (Utils.validateWithZod req
            (UserValidationSchema.body_only UserValidationSchema.signUpUser)).
  rewrite body_hook_passes. setoid_rewrite signUpUser_no_issue. split.
  - intros (props & Hbody
            & (name & email & phone & password & Hn & He & Hp & Hpw & ? & ? & ? & ?) & ->).
    exists props, name, email, phone, password.
    rewrite (strip_signUpUser props _ _ _ _ Hn He Hp Hpw). split_and!; done.
  - intros (props & name & email & phone & password
            & Hbody & Hn & He & Hp & Hpw & ? & ? & ? & ? & ->).
    exists props. rewrite (strip_signUpUser props _ _ _ _ Hn He Hp Hpw).
    split; [done|]. split; [|done]. exists name, email, phone, password.
    split_and!; done.
Qed.

(** X4. The sign-in hook lets a request through exactly when its body is an
    object whose [email] is a string the e-mail pattern matches and whose
    [password] is a strong password; the body handed on holds these two
    properties only. *)
Theorem signInUserSchema_passes_iff (req req' : FastifyRequest) (w : World) :
  (UserValidationSchema.signInUserSchema req w).2 = w
  ∧ ((UserValidationSchema.signInUserSchema req w).1 = (None, req')
     ↔ ∃ props email password,
         req_body req = Zod.JObject props
         ∧ props !! "email" = Some (Zod.JString email)
         ∧ props !! "password" = Some (Zod.JString password)
         ∧ email_pattern_test email = true
         ∧ Spec.strong_password password
         ∧ req' = Spec.with_body req
                    (Zod.JObject (list_to_map
                       [ ("email", Zod.JString email);
                         ("password", Zod.JString password) ]))).
Proof.
  split; [reflexivity|].
  change ((UserValidationSchema.signInUserSchema req w).1)
    with (Utils.validateWithZod req
            (UserValidationSchema.body_only UserValidationSchema.signInUser)).
  rewrite body_hook_passes. setoid_rewrite signInUser_no_issue. split.
  - intros (props & Hbody & (email & password & He & Hpw & ? & ?) & ->).
    exists props, email, password.
    rewrite (strip_signInUser props _ _ He Hpw). split_and!; done.
  - intros (props & email & password & Hbody & He & Hpw & ? & ? & ->).
    exists props. rewrite (strip_signInUser props _ _ He Hpw).
    split; [done|]. split; [|done]. exists email, password. split_and!; done.
Qed.

End HookOutcomes.

Section SendOtpHook.
Context `{!ZodFormats}.

(** X5. The send-code hook lets a request through exactly when its body is
    an object whose [email] is a string the e-mail pattern matches; the body
    handed on holds that one property.  A body without [email], or with an
    [email] that is not a string, is turned away. *)
Theorem sendOtpSchema_passes_iff (req req' : FastifyRequest) (w : World) :
  (UserValidationSchema.sendOtpSchema req w).2 = w
  ∧ ((UserValidationSchema.sendOtpSchema req w).1 = (None, req')
     ↔ ∃ props email,
         req_body req = Zod.JObject props
         ∧ props !! "email" = Some (Zod.JString email)
         ∧ email_pattern_test email = true
         ∧ req' = Spec.with_body req
                    (Zod.JObject (list_to_map [ ("email", Zod.JString email) ]))).
Proof.
  split; [reflexivity|].
  change ((UserValidationSchema.sendOtpSchema req w).1)
    with (Utils.validateWithZod req
            (UserValidationSchema.body_only UserValidationSchema.verifyEmailSchema)).
  rewrite body_hook_passes.
  assert (Hstrip : ∀ props email,
            props !! "email" = Some email →
            Zod.strip UserValidationSchema.verifyEmailSchema props
            = list_to_map [ ("email", email) ]).
  { intros props email Hemail. apply map_eq. intros k.
    rewrite strip_lookup. cbn [list_to_map foldr fst snd].
    change (UserValidationSchema.verifyEmailSchema.*1) with ["email"].
    rewrite lookup_insert. destruct (decide _) as [<-|?].
    - case_bool_decide as Hin; [done|]. exfalso. apply Hin. apply list_elem_of_here.
    - rewrite lookup_empty. case_bool_decide as Hin; [|done].
      apply list_elem_of_singleton in Hin. by subst. }
  assert (Hpass : ∀ props,
            Zod.parse_props email_pattern_test UserValidationSchema.verifyEmailSchema props = []
            ↔ ∃ email, props !! "email" = Some (Zod.JString email)
                       ∧ email_pattern_test email = true).
  { intros props. unfold Zod.parse_props, UserValidationSchema.verifyEmailSchema.
    cbn [flat_map]. rewrite app_nil, at_key_nil, parse_string_email_passes. tauto. }
  setoid_rewrite Hpass. split.
  - intros (props & Hbody & (email & He & ?) & ->).
    exists props, email. rewrite (Hstrip props _ He). split_and!; done.
  - intros (props & email & Hbody & He & ? & ->).
    exists props. rewrite (Hstrip props _ He). split_and!; eauto.
Qed.

End SendOtpHook.

(** ** The gate, on every request *)

Section GateOutcomes.
Context `{!Jose}.

(** What the gate does with a header that starts with the prefix: one call
    to the verifier, on the text up to the next space, decides. *)
Lemma handle_bearer (request : FastifyRequest) (w : World) (rest : string) :
  req_authorization request = Some ("Bearer " +:+ rest) →
  AuthMiddleware.handle request w
  = (match jwtVerify (Spec.up_to_space rest) with
     | inl payload => (None, Spec.with_user request payload)
     | inr error =>
         (Some (send 401 (BErrorDetails
                            (if AuthMiddleware.expired error
                             then "Token expired" else "Invalid token")
                            (err_message error))), request)
     end,
     mkWorld (store w) (trace w ++ [JwtVerify (Spec.up_to_space rest)])).
Proof.
  intros Hheader.
  unfold AuthMiddleware.handle, Utils.verifyJWT, emit, mbind, M_bind, mret, M_ret.
  rewrite Hheader. cbn [default from_option id JS.not_string].
  rewrite split_Bearer, startsWith_append. simpl.
  destruct (jwtVerify _); [|done]. unfold Spec.with_user. by rewrite Hheader.
Qed.

Lemma header_cases (authorization : option string) :
  (Spec.header_absent authorization ∨ Spec.lacks_bearer_prefix authorization)
  ∨ ∃ rest, authorization = Some ("Bearer " +:+ rest).
Proof.
  destruct authorization as [value|]; [|by left; left].
  destruct (JS.startsWith value "Bearer ") eqn:Hprefix.
  - right. apply startsWith_inv in Hprefix as [rest ->]. by exists rest.
  - left. right. by exists value.
Qed.

(** X6. The gate lets a request through only with a verified identity: if
    [handle] does not reply, the Authorization header starts with "Bearer ",
    the verifier accepted the text between the prefix and the next space, and
    the identity attached to the request is the payload the verifier
    returned, the rest of the request being unchanged.  Whenever it does
    reply, the status is 401, no cookie is set and the request is left as it
    was.  In either case the store is untouched and the verifier is called
    at most once. *)
Theorem handle_lets_through_only_verified (request : FastifyRequest) (w : World) :
  let result := AuthMiddleware.handle request w in
  store result.2 = store w
  ∧ match result.1.1 with
    | Some reply =>
        status reply = 401 ∧ cookies reply = [] ∧ result.1.2 = request
    | None =>
        ∃ rest payload,
          req_authorization request = Some ("Bearer " +:+ rest)
          ∧ jwtVerify (Spec.up_to_space rest) = inl payload
          ∧ result.1.2 = Spec.with_user request payload
    end
  ∧ (Spec.new_events w result.2 = []
     ∨ ∃ token, Spec.new_events w result.2 = [JwtVerify token]).
Proof.
  simpl. destruct (header_cases (req_authorization request)) as [Hguard|[rest Hrest]].
  - rewrite (handle_guard _ _ Hguard). simpl. split; [done|]. split; [done|].
    left. unfold Spec.new_events. apply drop_all.
  - rewrite (handle_bearer _ _ _ Hrest). simpl. split; [done|]. split.
    + destruct (jwtVerify (Spec.up_to_space rest)) as [payload|error] eqn:Hverify; simpl.
      * by exists rest, payload.
      * done.
    + right. eexists. apply new_events_appended.
Qed.

(** X7. When the verifier rejects the token of a "Bearer " header, the gate
    replies 401 with the error "Token expired" if the thrown error carries
    the code ERR_JWT_EXPIRED or the name JWTExpired, and "Invalid token"
    otherwise; in both cases the reply's details field is the thrown error's
    own message, passed on as it is. *)
Theorem handle_classifies_rejection
    (request : FastifyRequest) (w : World) (rest : string) (error : JoseError) :
  req_authorization request = Some ("Bearer " +:+ rest) →
  jwtVerify (Spec.up_to_space rest) = inr error →
  ∃ message,
    (AuthMiddleware.handle request w).1
    = (Some (send 401 (BErrorDetails message (err_message error))), request)
    ∧ (Spec.is_expiry error → message = "Token expired")
    ∧ (¬ Spec.is_expiry error → message = "Invalid token").
Proof.
  intros Hheader Hverify. rewrite (handle_bearer _ _ _ Hheader), Hverify. simpl.
  eexists. split; [reflexivity|].
  unfold AuthMiddleware.expired, Spec.is_expiry. split.
  - intros [Hcode|Hname].
    + by rewrite (bool_decide_eq_true_2 _ Hcode).
    + by rewrite (bool_decide_eq_true_2 _ Hname), orb_true_r.
  - intros Hnot.
    rewrite (bool_decide_eq_false_2 (err_code error = Some "ERR_JWT_EXPIRED")) by tauto.
    by rewrite (bool_decide_eq_false_2 (err_name error = Some "JWTExpired")) by tauto.
Qed.

End GateOutcomes.

(** ** The handlers, beyond the claims *)

Lemma sendEmail_run (email : string) (env : Env) (w : World) :
  UserController.sendEmail email env w
  = let row := mkOtp (env_uuid env) email
                     (Utils.generate4DigitOTP (env_randomInt env)) (Some false) in
    (send 200 (BMessage "OTP sent successfully"),
     mkWorld (mkStore (usersTable (store w)) (otpTable (store w) ++ [row]))
             (trace w ++ [InsertOtp row])).
Proof. reflexivity. Qed.

Lemma getUserDetail_run `{!Postgres} (payload : JwtPayload) (w : World) :
  UserController.getUserDetail payload w
  = let queried := mkWorld (store w) (trace w ++ [QueryUserById (jwt_id payload)]) in
    match uuid_in (jwt_id payload) with
    | None => (send 500 (BMessage "Internal server error"), queried)
    | Some id =>
        (send 200 (BMessageData "User details fetched successfully"
                     (Drizzle.findFirst (λ users, bool_decide (user_id users = id))
                        (usersTable (store w)))),
         queried)
    end.
Proof.
  unfold UserController.getUserDetail, UserController.getUser, Drizzle.findUserById,
    thrown, emit, get_store, mbind, M_bind, mret, M_ret.
  simpl. destruct (uuid_in (jwt_id payload)); reflexivity.
Qed.

Lemma findFirst_unique {Row Key : Type} `{EqDecision Key}
    (key : Row → Key) (table : list Row) (row : Row) :
  NoDup (key <$> table) → row ∈ table →
  Drizzle.findFirst (λ r, bool_decide (key r = key row)) table = Some row.
Proof.
  unfold Drizzle.findFirst.
  induction table as [|r table IH]; intros Hnodup Hin; [by apply elem_of_nil in Hin|].
  cbn [fmap list_fmap] in Hnodup. apply NoDup_cons in Hnodup as [Hfresh Hnodup].
  simpl. apply elem_of_cons in Hin as [->|Hin].
  - by rewrite bool_decide_eq_true_2.
  - rewrite bool_decide_eq_false_2; [by apply IH|].
    intros Hkey. apply Hfresh. rewrite Hkey. by apply list_elem_of_fmap_2.
Qed.

Section HandlerOutcomes.
Context `{!Bcrypt, !Jose}.

(** X8. Sign-in only reads: whatever the request, the store is left as it
    was, the status is 200 or 422, and the [token] cookie is set exactly on
    the 200 replies.  On success (the row found for the email carries the
    submitted password) the reply returns that row as it is stored, password
    field included, and its single cookie is HTTP-only, SameSite lax, on path
    "/", with a max-age of 604800 seconds, holding the token signed for the
    row's id, email and name with a 7-day expiry. *)
Theorem signIn_reads_only (request : SignInBody) (env : Env) (w : World) :
  let result := UserController.signIn request env w in
  store result.2 = store w
  ∧ (status result.1 = 200 ∨ status result.1 = 422)
  ∧ (cookies result.1 ≠ [] ↔ status result.1 = 200)
  ∧ (∀ user,
       Spec.user_with_email (signIn_email request) (store w) = Some user →
       user_password user = signIn_password request →
       result.1
       = mkReply 200 (BMessageData "Login successful" (Some user))
           [ mkCookie "token"
               (SignJWT_sign (mkPayload (uuid_text (user_id user)) (user_email user)
                                        (user_name user))
                             "7d" (env_iat env))
               true "lax" "/" 604800 ]).
Proof.
  simpl. rewrite signIn_run. simpl.
  destruct (Spec.user_with_email _ _) as [found|]; simpl.
  - case_bool_decide as Hpassword; simpl.
    + split; [done|]. split; [by right|]. split; [done|].
      intros user [= ->] Heq. done.
    + split; [done|]. split; [by left|]. split; [done|].
      intros user [= ->] _. reflexivity.
  - split; [done|]. split; [by right|]. split; done.
Qed.


End HandlerOutcomes.

Section Registration.
Context `{!Bcrypt, !Jose, !Postgres}.

Lemma signUp_success_store (request : SignUpBody) (env : Env) (w : World) :
  status (UserController.signUp request env w).1 = 200 →
  ∃ row,
    Drizzle.stored_user (signUp_name request) (signUp_email request) (signUp_phone request)
      (bcrypt_hash (signUp_password request) 10 (env_salt env))
      (env_uuid env) (env_now env) = Some row
    ∧ Spec.user_with_email (signUp_email request) (store w) = None
    ∧ store (UserController.signUp request env w).2
      = mkStore (usersTable (store w) ++ [row])
                (Drizzle.set_used (signUp_email request) <$> otpTable (store w)).
Proof.
  rewrite signUp_run. cbv zeta.
  destruct (Spec.user_with_email _ _) as [existing|]; [done|].
  destruct (Drizzle.findFirst _ _) as [otp|]; [|done].
  destruct (Drizzle.stored_user _ _ _ _ _ _) as [row|]; [|done].
  intros _. by exists row.
Qed.

(** X10. A successful sign-up uses up the address: in the store it leaves,
    no OTP row for that email is redeemable any more, whatever its code, and
    every later sign-up for the same email, with any name, password, code or
    environment, is answered 422 and changes nothing.  The message is "Email
    already exists"; only for an email of more than 255 characters, which
    the server stored cut to 255, the lookup by the submitted email finds no
    row and the message is that of the OTP check. *)
Theorem signUp_uses_up_the_address (request : SignUpBody) (env : Env) (w : World) :
  status (UserController.signUp request env w).1 = 200 →
  let w' := (UserController.signUp request env w).2 in
  (∀ code, ¬ Spec.unused_otp_exists (signUp_email request) code (store w'))
  ∧ (∀ again env',
       signUp_email again = signUp_email request →
       (UserController.signUp again env' w').1
       = send 422 (BMessage
                     (if (String.length (signUp_email request) <=? 255)%nat
                      then "Email already exists"
                      else "Invalid OTP code either used or expired"))
       ∧ store (UserController.signUp again env' w').2 = store w').
Proof.
  intros Hok.
  destruct (signUp_success_store request env w Hok) as (row & Hrow & Hfresh & Hstore).
  apply stored_user_Some in Hrow as (_ & _ & Hemail & _).
  cbv zeta.
  assert (Hcodes : ∀ code,
             ¬ Spec.unused_otp_exists (signUp_email request) code
                 (store (UserController.signUp request env w).2)).
  { intros code (otp & Hin & Hsame & _ & Hunused).
    rewrite Hstore in Hin. simpl in Hin.
    apply list_elem_of_fmap in Hin as (before & -> & _).
    unfold Drizzle.set_used in *. case_bool_decide; simpl in *; congruence. }
  split; [exact Hcodes|].
  intros again env' Hsame. rewrite (signUp_run again). cbv zeta. rewrite Hsame.
  assert (Hlookup : Spec.user_with_email (signUp_email request)
                      (store (UserController.signUp request env w).2)
                    = if (String.length (signUp_email request) <=? 255)%nat
                      then Some row else None).
  { rewrite Hstore. unfold Spec.user_with_email in *. simpl.
    rewrite (findFirst_app_None _ _ _ Hfresh). simpl.
    apply varchar_Some in Hemail as [[Hfit ->]|[Hlong Hcut]].
    - rewrite (proj2 (Nat.leb_le _ _) Hfit). by rewrite bool_decide_eq_true_2.
    - rewrite (proj2 (Nat.leb_gt _ _) Hlong). by rewrite bool_decide_eq_false_2. }
  rewrite Hlookup. destruct (String.length (signUp_email request) <=? 255)%nat; [done|].
  rewrite (proj2 (findUnusedOtp_None _ _ _) (Hcodes (signUp_otp again))). done.
Qed.

(** X11. The handlers keep e-mail addresses unique.  Sign-in, send-code and
    get-profile leave the User rows as they are.  Sign-up leaves them as they
    are or appends one row, and appends only when no row carries the
    submitted email; the appended row carries that email as the
    255-character column stores it.  So if no two User rows of the store
    carry the same email, the same holds of the store every handler leaves,
    run one at a time, sign-up included whenever the submitted email has at
    most 255 characters. *)
Theorem handlers_keep_emails_unique (w : World) :
  Spec.emails_unique (store w) →
  (∀ request env,
     let after := store (UserController.signUp request env w).2 in
     (usersTable after = usersTable (store w)
      ∨ ∃ row,
          usersTable after = usersTable (store w) ++ [row]
          ∧ ¬ Spec.registered (signUp_email request) (store w)
          ∧ Pg.varchar 255 (signUp_email request) = Some (user_email row))
     ∧ ((String.length (signUp_email request) ≤ 255)%nat → Spec.emails_unique after))
  ∧ (∀ request env,
       usersTable (store (UserController.signIn request env w).2) = usersTable (store w)
       ∧ Spec.emails_unique (store (UserController.signIn request env w).2))
  ∧ (∀ email env,
       usersTable (store (UserController.sendEmail email env w).2) = usersTable (store w)
       ∧ Spec.emails_unique (store (UserController.sendEmail email env w).2))
  ∧ (∀ payload,
       usersTable (store (UserController.getUserDetail payload w).2) = usersTable (store w)
       ∧ Spec.emails_unique (store (UserController.getUserDetail payload w).2)).
Proof.
  intros Hunique. split; [|split; [|split]].
  - intros request env. cbv zeta. rewrite signUp_run. cbv zeta.
    destruct (Spec.user_with_email _ _) as [existing|] eqn:Hfind;
      [split; [by left | done]|].
    destruct (Drizzle.findFirst _ _) as [otp|]; [|split; [by left | done]].
    destruct (Drizzle.stored_user _ _ _ _ _ _) as [row|] eqn:Hrow;
      [|split; [by left | done]].
    apply user_with_email_None in Hfind.
    apply stored_user_Some in Hrow as (_ & _ & Hemail & _).
    cbn [snd store usersTable]. split.
    + right. by exists row.
    + intros Hfit. rewrite (varchar_fits _ _ Hfit) in Hemail. injection Hemail as Hemail.
      unfold Spec.emails_unique in *. cbn [usersTable]. rewrite fmap_app.
      apply NoDup_app. split; [done|]. split; [|apply NoDup_singleton].
      intros email Hin Hnew. apply list_elem_of_singleton in Hnew. subst email.
      apply list_elem_of_fmap in Hin as (user & Hsame & Hin).
      apply Hfind. exists user. split; [done|]. congruence.
  - intros request env. rewrite signIn_run. cbv zeta.
    destruct (Spec.user_with_email _ _) as [found|]; [|done].
    by case_bool_decide.
  - intros email env. by rewrite sendEmail_run.
  - intros payload. rewrite getUserDetail_run. cbv zeta.
    by destruct (uuid_in _).
Qed.

(** X12. Send-code always replies 200 "OTP sent successfully" and appends
    one OTP row for the address, unused, carrying the generated code; it
    makes no other call (it does not ask whether the address is registered)
    and leaves the User rows alone.  Codes issued earlier are not
    invalidated: every pair of email and code that was redeemable before is
    redeemable after, and so is the new one. *)
Theorem sendEmail_issues_code (email : string) (env : Env) (w : World) :
  let result := UserController.sendEmail email env w in
  let code := Utils.generate4DigitOTP (env_randomInt env) in
  result.1 = send 200 (BMessage "OTP sent successfully")
  ∧ usersTable (store result.2) = usersTable (store w)
  ∧ otpTable (store result.2)
    = otpTable (store w) ++ [mkOtp (env_uuid env) email code (Some false)]
  ∧ Spec.new_events w result.2 = [InsertOtp (mkOtp (env_uuid env) email code (Some false))]
  ∧ Spec.unused_otp_exists email (Some code) (store result.2)
  ∧ (∀ email' code',
       Spec.unused_otp_exists email' code' (store w) →
       Spec.unused_otp_exists email' code' (store result.2)).
Proof.
  cbv zeta. rewrite sendEmail_run. simpl.
  split; [done|]. split; [done|]. split; [done|]. split; [apply new_events_appended|].
  split.
  - eexists. split; [apply elem_of_app; right; apply list_elem_of_here|]. done.
  - intros email' code' (otp & Hin & Hredeems). exists otp. split; [|done].
    simpl. apply elem_of_app. by left.
Qed.

(** X14. Get-profile only reads, and what it replies depends on the id the
    token carries alone: the email and name in the token play no part.  When
    the server refuses the id as a uuid the query throws and the reply is the
    generic 500 "Internal server error".  Otherwise the reply is 200; its
    data is the first row whose id is the uuid the token's id denotes (so
    some row of the table with that id), and it is absent exactly when no
    row has that id. *)
Theorem getUserDetail_outcomes (payload : JwtPayload) (w : World) :
  let result := UserController.getUserDetail payload w in
  store result.2 = store w
  ∧ (uuid_in (jwt_id payload) = None →
       result.1 = send 500 (BMessage "Internal server error"))
  ∧ (∀ id, uuid_in (jwt_id payload) = Some id →
       ∃ data,
         result.1 = send 200 (BMessageData "User details fetched successfully" data)
         ∧ (∀ user, data = Some user → user ∈ usersTable (store w) ∧ user_id user = id)
         ∧ (data = None ↔ ∀ user, user ∈ usersTable (store w) → user_id user ≠ id))
  ∧ (∀ other w',
       jwt_id other = jwt_id payload → store w' = store w →
       (UserController.getUserDetail other w').1 = result.1).
Proof.
  cbv zeta. rewrite getUserDetail_run. cbv zeta.
  split; [by destruct (uuid_in _)|]. split; [by intros ->|]. split.
  - intros id ->. cbn [fst]. eexists. split; [reflexivity|]. split.
    + intros user [Hin Hid]%findFirst_Some. split; [done|].
      by apply bool_decide_eq_true in Hid.
    + rewrite findFirst_None. split.
      * intros Hall user Hin. specialize (Hall user Hin).
        by apply bool_decide_eq_false in Hall.
      * intros Hall user Hin. apply bool_decide_eq_false. by apply Hall.
  - intros other w' Hid Hstore. rewrite getUserDetail_run. cbv zeta.
    rewrite Hid, Hstore. by destruct (uuid_in _).
Qed.

(** X15. A session round trip.  Suppose sign-in succeeds for a row [user] of
    a store whose ids are unique, and suppose the verifier accepts the token
    that sign-in signs and returns the payload that was signed (jose's
    contract before expiry), the token holding no space.  Then the cookie
    sign-in sets carries that token; presented as "Bearer <token>" the gate
    lets the request through with the identity of [user] and leaves the store
    alone; and get-profile for that identity returns the row of [user]. *)
Theorem session_round_trip
    (request : SignInBody) (env : Env) (w : World) (user : UserRow)
    (detail : FastifyRequest) :
  let token := SignJWT_sign (UserController.payload_of user) "7d" (env_iat env) in
  Spec.user_with_email (signIn_email request) (store w) = Some user →
  user_password user = signIn_password request →
  Spec.ids_unique (store w) →
  jwtVerify token = inl (UserController.payload_of user) →
  Spec.up_to_space token = token →
  req_authorization detail = Some ("Bearer " +:+ token) →
  let signed_in := UserController.signIn request env w in
  let gate := AuthMiddleware.handle detail signed_in.2 in
  let profile := UserController.getUserDetail (UserController.payload_of user) gate.2 in
  cookie_value <$> cookies signed_in.1 = [token]
  ∧ gate.1 = (None, Spec.with_user detail (UserController.payload_of user))
  ∧ profile.1 = send 200 (BMessageData "User details fetched successfully" (Some user))
  ∧ store profile.2 = store w.
Proof.
  intros token Hfind Hpassword Hids Hverify Hspace Hheader. cbv zeta.
  rewrite signIn_run. cbv zeta. rewrite Hfind.
  rewrite bool_decide_eq_false_2 by (intros Hne; by apply Hne). cbn [fst snd].
  rewrite (handle_bearer _ _ _ Hheader). rewrite Hspace, Hverify. cbn [fst snd].
  rewrite getUserDetail_run. cbv zeta.
  change (jwt_id (UserController.payload_of user)) with (uuid_text (user_id user)).
  rewrite uuid_in_text. cbn [fst snd store status body cookies].
  split; [done|]. split; [done|]. split; [|done].
  do 2 f_equal.
  apply user_with_email_Some in Hfind as [Hin _].
  by apply (findFirst_unique user_id).
Qed.

End Registration.

(** ** The sign-up route *)

Lemma parsed_signUp_body (name email phone password : string) :
  Routes.signUp_body
    (Zod.JObject (list_to_map
       [ ("name", Zod.JString name); ("email", Zod.JString email);
         ("phone", Zod.JString phone); ("password", Zod.JString password) ]))
  = Some (mkSignUp name email phone password None).
Proof. reflexivity. Qed.

Lemma no_code_redeems_nothing (email : string) (s : Store) :
  ¬ Spec.unused_otp_exists email None s.
Proof. by intros (otp & _ & _ & Hcode & _). Qed.

Section SignUpRoute.
Context `{!Bcrypt, !Jose, !ZodFormats}.

Lemma sign_up_route_run (request : FastifyRequest) (env : Env) (w : World) :
  Routes.sign_up env request w
  = match Utils.validateWithZod request
            (UserValidationSchema.body_only UserValidationSchema.signUpUser) with
    | (Some reply, _) => (Some reply, w)
    | (None, req') =>
        match Routes.signUp_body (req_body req') with
        | Some body =>
            (Some (UserController.signUp body env w).1,
             (UserController.signUp body env w).2)
        | None => (None, w)
        end
    end.
Proof.
  unfold Routes.sign_up, UserValidationSchema.signUpUserSchema,
    mbind, M_bind, mret, M_ret.
  destruct (Utils.validateWithZod request _) as [[early|] req']; cbn [fst snd]; [done|].
  destruct (Routes.signUp_body _) as [body|]; [|done].
  by destruct (UserController.signUp body env w).
Qed.

(** X17. Through its route, sign-up accepts no request.  The validation hook
    runs first and hands the handler the parsed body, which holds [name],
    [email], [phone] and [password] only; the handler then reads [otp] as
    undefined, so once the duplicate-email check has passed the OTP lookup
    finds no row.  Every request is answered (the handler never meets a body
    it cannot read) with status 422 and no cookie; the store is left as it
    was and the only calls made are the duplicate-email query and an OTP
    query without a code: no hash, insert, update or signature.  For a
    request the hook lets through, the message is "Email already exists" when
    a row carries the address and "Invalid OTP code either used or expired"
    otherwise, whatever code the request held and whatever OTP rows the
    store holds. *)
Theorem sign_up_route_accepts_nothing (request : FastifyRequest) (env : Env) (w : World) :
  let result := Routes.sign_up env request w in
  ∃ reply,
    result.1 = Some reply
    ∧ status reply = 422
    ∧ cookies reply = []
    ∧ store result.2 = store w
    ∧ (∀ e, e ∈ Spec.new_events w result.2 →
         ∃ email, e = QueryUserByEmail email ∨ e = QueryOtp email None)
    ∧ (∀ req', (UserValidationSchema.signUpUserSchema request w).1 = (None, req') →
         ∃ body,
           Routes.signUp_body (req_body req') = Some body
           ∧ signUp_otp body = None
           ∧ reply = send 422 (BMessage
                       match Spec.user_with_email (signUp_email body) (store w) with
                       | Some _ => "Email already exists"
                       | None => "Invalid OTP code either used or expired"
                       end)).
Proof.
  cbv zeta. rewrite sign_up_route_run.
  change (UserValidationSchema.signUpUserSchema request w)
    with (Utils.validateWithZod request
            (UserValidationSchema.body_only UserValidationSchema.signUpUser), w).
  destruct (Utils.validateWithZod request _) as [[early|] req1] eqn:Hhook; cbn [fst snd].
  - exists early. split; [reflexivity|].
    assert (Hearly : ∃ error, early = Utils.invalid "Invalid body" error).
    { revert Hhook. unfold Utils.validateWithZod, UserValidationSchema.body_only. simpl.
      destruct (Zod.safeParse _ _ _) as [data|error]; [done|].
      intros [= <- _]. by exists error. }
    destruct Hearly as [error ->]. split; [done|]. split; [done|]. split; [done|].
    split; [|done].
    intros e He. unfold Spec.new_events in He. rewrite drop_all in He.
    by apply elem_of_nil in He.
  - apply body_hook_passes in Hhook as (props & Hbody & Hparse & ->).
    apply signUpUser_no_issue in Hparse
      as (name & email & phone & password & Hn & He & Hp & Hpw & _).
    rewrite (strip_signUpUser props _ _ _ _ Hn He Hp Hpw).
    cbn [Spec.with_body req_body]. rewrite parsed_signUp_body.
    rewrite signUp_run. cbv zeta.
    cbn [signUp_email signUp_otp].
    rewrite (proj2 (findUnusedOtp_None email None (store w)) (no_code_redeems_nothing _ _)).
    destruct (Spec.user_with_email email (store w)) as [existing|] eqn:Hexisting;
      cbn [fst snd store].
    + eexists. split; [reflexivity|]. split; [done|]. split; [done|]. split; [done|].
      split.
      * rewrite new_events_appended. intros e ->%list_elem_of_singleton. eauto.
      * intros req' [= <-]. eexists. split; [apply parsed_signUp_body|].
        split; [done|]. cbn [signUp_email]. by rewrite Hexisting.
    + eexists. split; [reflexivity|]. split; [done|]. split; [done|]. split; [done|].
      split.
      * rewrite <- app_assoc, new_events_appended. intros e Hin.
        apply elem_of_cons in Hin as [->|Hin]; [eauto|].
        apply list_elem_of_singleton in Hin as ->. eauto.
      * intros req' [= <-]. eexists. split; [apply parsed_signUp_body|].
        split; [done|]. cbn [signUp_email]. by rewrite Hexisting.
Qed.

End SignUpRoute.

(** ** Distinct draws, distinct codes *)

Lemma decimal_value_zero_padded4 (n : N) :
  (n < 10000)%N → Spec.decimal_value (Spec.zero_padded4 n) = n.
Proof.
  intros Hlt.
  assert (Hd : ∀ i, (n / i mod 10 < 10)%N) by (intros i; by apply N.mod_lt).
  pose proof (digit_decimal _ (Hd 1000%N)) as (_ & _ & V3).
  pose proof (digit_decimal _ (Hd 100%N)) as (_ & _ & V2).
  pose proof (digit_decimal _ (Hd 10%N)) as (_ & _ & V1).
  pose proof (digit_decimal _ (N.mod_lt n 10 ltac:(done))) as (_ & _ & V0).
  unfold Spec.zero_padded4, Spec.decimal_value.
  change Spec.decimal_digit with JS.digit. simpl. rewrite V3, V2, V1, V0.
  replace (n / 100)%N with (n / 10 / 10)%N by (by rewrite N.Div0.div_div).
  replace (n / 1000)%N with (n / 10 / 10 / 10)%N by (by rewrite !N.Div0.div_div).
  assert (Hsmall : (n / 10 / 10 / 10 < 10)%N)
    by (do 3 apply N.Div0.div_lt_upper_bound; lia).
  rewrite (N.mod_small _ _ Hsmall).
  pose proof (N.div_mod n 10 ltac:(done)).
  pose proof (N.div_mod (n / 10) 10 ltac:(done)).
  pose proof (N.div_mod (n / 10 / 10) 10 ltac:(done)).
  lia.
Qed.

(** X16. Over the integers [randomInt(0, 10_000)] can return, the OTP
    generator is one-to-one: two draws yield the same code only if they are
    the same integer, so the 10000 draws give 10000 different codes. *)
Theorem generate4DigitOTP_injective (m n : N) :
  Utils.randomInt 0 10000 m → Utils.randomInt 0 10000 n →
  Utils.generate4DigitOTP m = Utils.generate4DigitOTP n → m = n.
Proof.
  intros [_ Hm] [_ Hn] Hsame.
  rewrite !generate4DigitOTP_zero_padded in Hsame by done.
  rewrite <- (decimal_value_zero_padded4 m Hm), <- (decimal_value_zero_padded4 n Hn).
  by rewrite Hsame.
Qed.

Lemma generate4DigitOTP_injective_witness :
  Utils.randomInt 0 10000 42 ∧ Utils.randomInt 0 10000 420
  ∧ Utils.generate4DigitOTP 42 ≠ Utils.generate4DigitOTP 420.
Proof.
  assert (H1 : Utils.randomInt 0 10000 42) by (unfold Utils.randomInt; lia).
  assert (H2 : Utils.randomInt 0 10000 420) by (unfold Utils.randomInt; lia).
  split; [exact H1|]. split; [exact H2|]. intros Hsame.
  pose proof (generate4DigitOTP_injective 42 420 H1 H2 Hsame). lia.
Defined.

(** ** The further properties, on concrete requests *)

Lemma validateWithZod_first_failing_part_witness :
  @Utils.validateWithZod Sample.formats Sample.email_request Sample.body_and_query
  = (Some (send 422
             (BInvalid "Invalid query"
                (Utils.formatZodErrors
                   (Zod.mkZodError
                      [Zod.mkIssue [] "Invalid input: expected object, received undefined"])))),
     Spec.with_body Sample.email_request Sample.email_body).
Proof.
  apply (proj1 (proj2 (@validateWithZod_first_failing_part Sample.formats
                         Sample.email_request Sample.body_and_query))
           [("email", Zod.email None)] Sample.email_body Sample.page_query).
  - reflexivity.
  - vm_compute. reflexivity.
  - reflexivity.
  - reflexivity.
Defined.

Lemma strong_password_sample : Spec.strong_password "Abc123!@".
Proof. apply password_checks_pass. reflexivity. Qed.

Lemma signUpUserSchema_passes_iff_witness :
  (@UserValidationSchema.signUpUserSchema Sample.formats
     Sample.good_request Sample.empty).1
  = (None, Spec.with_body Sample.good_request Sample.parsed_body)
  ∧ match Sample.good_body, Sample.parsed_body with
    | Zod.JObject sent, Zod.JObject kept =>
        sent !! "otp" = Some (Zod.JString "0042") ∧ kept !! "otp" = None
    | _, _ => False
    end.
Proof.
  split; [|split; reflexivity].
  apply (proj2 (proj2 (@signUpUserSchema_passes_iff Sample.formats
                         Sample.good_request _ Sample.empty))).
  eexists _, "Al", "a@b.com", "1234567890", "Abc123!@".
  split; [reflexivity|].
  split_and!; try reflexivity; try (simpl; lia).
  apply strong_password_sample.
Defined.

Lemma signInUserSchema_passes_iff_witness :
  (@UserValidationSchema.signInUserSchema Sample.formats
     Sample.login_request Sample.empty).1
  = (None, Spec.with_body Sample.login_request
             (Zod.JObject (list_to_map [ ("email", Zod.JString "a@b.com");
                                         ("password", Zod.JString "Abc123!@") ]))).
Proof.
  apply (proj2 (proj2 (@signInUserSchema_passes_iff Sample.formats
                         Sample.login_request _ Sample.empty))).
  eexists _, "a@b.com", "Abc123!@".
  split; [reflexivity|].
  split_and!; try reflexivity.
  apply strong_password_sample.
Defined.

Lemma sendOtpSchema_passes_iff_witness :
  (@UserValidationSchema.sendOtpSchema Sample.formats
     Sample.email_request Sample.empty).1
  = (None, Spec.with_body Sample.email_request Sample.email_body).
Proof.
  apply (proj2 (proj2 (@sendOtpSchema_passes_iff Sample.formats
                         Sample.email_request _ Sample.empty))).
  eexists _, "a@b.com".
  split; [reflexivity|]. split_and!; reflexivity.
Defined.

Lemma handle_classifies_rejection_witness :
  (@AuthMiddleware.handle Sample.jose
     (Sample.request (Some ("Bearer " +:+ Sample.stale_token))) Sample.empty).1
  = (Some (send 401 (BErrorDetails "Token expired" "exp claim timestamp check failed")),
     Sample.request (Some ("Bearer " +:+ Sample.stale_token))).
Proof.
  destruct (@handle_classifies_rejection Sample.jose
              (Sample.request (Some ("Bearer " +:+ Sample.stale_token))) Sample.empty Sample.stale_token
              (mkJoseError (Some "ERR_JWT_EXPIRED") (Some "JWTExpired")
                           "exp claim timestamp check failed")
              eq_refl eq_refl) as (message & Hreply & Hexpired & _).
  rewrite Hreply. rewrite (Hexpired (or_introl eq_refl)). reflexivity.
Defined.

Lemma signIn_reads_only_witness :
  (@UserController.signIn Sample.jose (mkSignIn "a@b.com" "Abc123!@")
     Sample.env Sample.member).1
  = mkReply 200 (BMessageData "Login successful" (Some Sample.al_row_1))
      [ mkCookie "token" Sample.alice_token true "lax" "/" 604800 ].
Proof.
  exact (proj2 (proj2 (proj2
           (@signIn_reads_only Sample.jose (mkSignIn "a@b.com" "Abc123!@")
              Sample.env Sample.member)))
           Sample.al_row_1 eq_refl eq_refl).
Defined.


Lemma signUp_uses_up_the_address_witness :
  let w' := (@UserController.signUp Sample.bcrypt Sample.jose
               Sample.sign_up Sample.env Sample.two_codes).2 in
  ¬ Spec.unused_otp_exists "a@b.com" (Some "7311") (store w')
  ∧ (@UserController.signUp Sample.bcrypt Sample.jose
       (mkSignUp "Bo" "a@b.com" "0987654321" "Xyz987#$" (Some "7311")) Sample.env w').1
    = send 422 (BMessage "Email already exists").
Proof.
  pose proof (@signUp_uses_up_the_address Sample.bcrypt Sample.jose
                Sample.sign_up Sample.env Sample.two_codes eq_refl) as [Hcodes Hagain].
  split.
  - exact (Hcodes (Some "7311")).
  - exact (proj1 (Hagain (mkSignUp "Bo" "a@b.com" "0987654321" "Xyz987#$" (Some "7311"))
                         Sample.env eq_refl)).
Defined.

Lemma handlers_keep_emails_unique_witness :
  (Spec.emails_unique (store Sample.one_member)
   ∧ user_email <$> usersTable (store Sample.one_member) = ["a@b.com"]
   ∧ user_email <$> usersTable
       (store (@UserController.signUp Sample.bcrypt Sample.jose
                 Sample.cy_sign_up Sample.env Sample.one_member).2)
     = ["a@b.com"; "c@d.com"]
   ∧ Spec.emails_unique
       (store (@UserController.signUp Sample.bcrypt Sample.jose
                 Sample.cy_sign_up Sample.env Sample.one_member).2))
  ∧ (Spec.emails_unique (store Sample.registered)
     ∧ Spec.registered "a@b.com" (store Sample.registered)
     ∧ Spec.unused_otp_exists "a@b.com" (Some "0042") (store Sample.registered)
     ∧ usersTable
         (store (@UserController.signUp Sample.bcrypt Sample.jose
                   Sample.sign_up Sample.env Sample.registered).2)
       = usersTable (store Sample.registered)).
Proof.
  split.
  - assert (Hunique : Spec.emails_unique (store Sample.one_member))
      by apply NoDup_singleton.
    assert (Hfit : (String.length (signUp_email Sample.cy_sign_up) ≤ 255)%nat)
      by (vm_compute; lia).
    split; [exact Hunique|]. split; [reflexivity|]. split; [reflexivity|].
    exact (proj2 (proj1 (@handlers_keep_emails_unique Sample.bcrypt Sample.jose
                           Sample.postgres Sample.one_member Hunique)
                    Sample.cy_sign_up Sample.env) Hfit).
  - assert (Hunique : Spec.emails_unique (store Sample.registered))
      by apply NoDup_singleton.
    assert (Hregistered : Spec.registered "a@b.com" (store Sample.registered)).
    { exists Sample.al_row. split; [apply list_elem_of_here | reflexivity]. }
    split; [exact Hunique|]. split; [exact Hregistered|]. split.
    { eexists. split; [apply list_elem_of_here | done]. }
    destruct (proj1 (proj1 (@handlers_keep_emails_unique Sample.bcrypt Sample.jose
                              Sample.postgres Sample.registered Hunique)
                       Sample.sign_up Sample.env))
      as [Hsame | (row & _ & Hfresh & _)]; [exact Hsame|].
    by destruct (Hfresh Hregistered).
Defined.

Lemma sendEmail_issues_code_witness :
  let result := UserController.sendEmail "a@b.com" Sample.env Sample.two_codes in
  Spec.unused_otp_exists "a@b.com" (Some "7311") (store Sample.two_codes)
  ∧ Spec.unused_otp_exists "a@b.com" (Some "7311") (store result.2)
  ∧ Spec.unused_otp_exists "a@b.com" (Some "0042") (store result.2)
  ∧ length (otpTable (store result.2)) = 4%nat.
Proof.
  assert (Hbefore : Spec.unused_otp_exists "a@b.com" (Some "7311") (store Sample.two_codes)).
  { eexists. split; [apply list_elem_of_further, list_elem_of_here|]. done. }
  pose proof (sendEmail_issues_code "a@b.com" Sample.env Sample.two_codes)
    as (_ & _ & Hrows & _ & Hnew & Hkept).
  split; [exact Hbefore|]. split; [exact (Hkept _ _ Hbefore)|]. split; [exact Hnew|].
  cbv zeta. rewrite Hrows. reflexivity.
Defined.

Lemma getUserDetail_outcomes_witness :
  (@UserController.getUserDetail Sample.postgres Sample.alice Sample.empty).1
  = send 200 (BMessageData "User details fetched successfully" None)
  ∧ (@UserController.getUserDetail Sample.postgres Sample.alice Sample.member).1
    = send 200 (BMessageData "User details fetched successfully" (Some Sample.al_row_1))
  ∧ (@UserController.getUserDetail Sample.postgres Sample.outsider Sample.member).1
    = send 500 (BMessage "Internal server error").
Proof.
  destruct (@getUserDetail_outcomes Sample.postgres Sample.alice Sample.empty)
    as (_ & _ & Hfound & _).
  destruct (Hfound Sample.uuid_1 eq_refl) as (data & Hreply & _ & Hnone).
  split; [|split; [reflexivity|]].
  - rewrite Hreply. do 2 f_equal. apply Hnone.
    intros user Hin. by apply elem_of_nil in Hin.
  - exact (proj1 (proj2 (@getUserDetail_outcomes Sample.postgres
                           Sample.outsider Sample.member)) eq_refl).
Defined.

Lemma sign_up_route_accepts_nothing_witness :
  req_body Sample.good_request = Sample.good_body
  ∧ Spec.unused_otp_exists "a@b.com" (Some "0042") (store Sample.two_codes)
  ∧ ¬ Spec.registered "a@b.com" (store Sample.two_codes)
  ∧ @Routes.sign_up Sample.bcrypt Sample.jose Sample.formats
      Sample.env Sample.good_request Sample.two_codes
    = (Some (send 422 (BMessage "Invalid OTP code either used or expired")),
       mkWorld (store Sample.two_codes)
               [ QueryUserByEmail "a@b.com"; QueryOtp "a@b.com" None ]).
Proof.
  split; [reflexivity|]. split.
  { eexists. split; [apply list_elem_of_here | done]. }
  split.
  { intros (user & Hin & _). by apply elem_of_nil in Hin. }
  destruct (@sign_up_route_accepts_nothing Sample.bcrypt Sample.jose Sample.formats
              Sample.good_request Sample.env Sample.two_codes)
    as (reply & Hreply & _ & _ & _ & _ & Hpassed).
  destruct (Hpassed (Spec.with_body Sample.good_request Sample.parsed_body) eq_refl)
    as (body & Hbody & _ & Hmessage).
  injection Hbody as <-. cbn in Hmessage. subst reply.
  destruct (@Routes.sign_up Sample.bcrypt Sample.jose Sample.formats
              Sample.env Sample.good_request Sample.two_codes) as [sent after] eqn:Hrun.
  cbn [fst] in Hreply. subst sent.
  rewrite <- Hrun. reflexivity.
Defined.

Lemma session_round_trip_witness :
  let detail := Sample.request (Some ("Bearer " +:+ Sample.alice_token)) in
  let signed_in := @UserController.signIn Sample.jose (mkSignIn "a@b.com" "Abc123!@")
                     Sample.env Sample.member in
  let gate := @AuthMiddleware.handle Sample.jose detail signed_in.2 in
  cookie_value <$> cookies signed_in.1 = [Sample.alice_token]
  ∧ gate.1 = (None, Spec.with_user detail Sample.alice)
  ∧ (@UserController.getUserDetail Sample.postgres Sample.alice gate.2).1
    = send 200 (BMessageData "User details fetched successfully" (Some Sample.al_row_1)).
Proof.
  assert (Hids : Spec.ids_unique (store Sample.member)).
  { apply NoDup_singleton. }
  pose proof (@session_round_trip Sample.jose Sample.postgres (mkSignIn "a@b.com" "Abc123!@")
                Sample.env Sample.member Sample.al_row_1
                (Sample.request (Some ("Bearer " +:+ Sample.alice_token)))
                eq_refl eq_refl Hids eq_refl eq_refl eq_refl)
    as (Hcookie & Hgate & Hprofile & _).
  split; [exact Hcookie|]. split; [exact Hgate|]. exact Hprofile.
Defined.
